(** * CodeCircle: the social interaction routes (likes, follows, comment threads)

    A shallow embedding of the Next.js route handlers that maintain Like,
    Follow and Comment documents, together with the parts of the Mongoose
    schemas they rely on.  The MongoDB collections are lists of documents in
    natural (insertion) order; every handler is a function from the database
    and the request to a response and the database it leaves behind. *)

From Stdlib Require Import ZArith NArith List String Ascii Bool Lia.
Import ListNotations.

Local Open Scope string_scope.
Local Open Scope list_scope.
Local Open Scope Z_scope.

(** ** JavaScript strings *)

(** A JavaScript string is a sequence of UTF-16 code units; [length] counts
    code units. *)
Definition JSString := list N.

Definition js (s : string) : JSString :=
  map N_of_ascii (list_ascii_of_string s).

Definition js_length (s : JSString) : Z := Z.of_nat (List.length s).

(** The code units removed by [String.prototype.trim]: WhiteSpace and
    LineTerminator of ECMAScript. *)
Definition is_js_space (c : N) : bool :=
  ((9 <=? c) && (c <=? 13) || (c =? 32) || (c =? 160) || (c =? 5760)
   || (8192 <=? c) && (c <=? 8202) || (c =? 8232) || (c =? 8233)
   || (c =? 8239) || (c =? 8287) || (c =? 12288) || (c =? 65279))%N.

Fixpoint trim_start (s : JSString) : JSString :=
  match s with
  | [] => []
  | c :: r => if is_js_space c then trim_start r else s
  end.

Definition trim_end (s : JSString) : JSString := rev (trim_start (rev s)).

Definition trim (s : JSString) : JSString := trim_end (trim_start s).

(** ** ObjectIds *)

(** An ObjectId is represented by its [toString()]: 24 lower-case hexadecimal
    digits.  Route parameters are arbitrary strings. *)
Definition ObjectId := string.

Definition is_hex (a : ascii) : bool :=
  let n := N_of_ascii a in
  ((48 <=? n) && (n <=? 57) || (65 <=? n) && (n <=? 70)
   || (97 <=? n) && (n <=? 102))%N.

Definition lower (a : ascii) : ascii :=
  let n := N_of_ascii a in
  if ((65 <=? n) && (n <=? 90))%N then ascii_of_N (n + 32) else a.

Fixpoint string_map (f : ascii -> ascii) (s : string) : string :=
  match s with
  | EmptyString => EmptyString
  | String a r => String (f a) (string_map f r)
  end.

Fixpoint string_forall (p : ascii -> bool) (s : string) : bool :=
  match s with
  | EmptyString => true
  | String a r => p a && string_forall p r
  end.

(** [mongoose.Types.ObjectId.isValid] on a string: the 24 hexadecimal digit
    form, in either case. *)
Definition isValid (s : string) : bool :=
  (String.length s =? 24)%nat && string_forall is_hex s.

(** [new mongoose.Types.ObjectId(s)], and the cast Mongoose applies to a string
    used where the schema has an ObjectId: hexadecimal digits are read
    case-insensitively. *)
Definition toObjectId (s : string) : ObjectId := string_map lower s.

(** The strings that are the [toString()] of an ObjectId. *)
Definition canonical (s : string) : bool :=
  isValid s && String.eqb (toObjectId s) s.

(** ** Collections *)

Section Collection.
Context {D : Type}.
Variable idOf : D -> ObjectId.

Definition findOne (p : D -> bool) (l : list D) : option D := find p l.

Definition findById (id : ObjectId) (l : list D) : option D :=
  findOne (fun d => String.eqb (idOf d) id) l.

(** [findByIdAndUpdate]: the first document with this [_id] is updated in
    place; nothing happens when there is none. *)
Fixpoint findByIdAndUpdate (id : ObjectId) (f : D -> D) (l : list D)
  : list D :=
  match l with
  | [] => []
  | d :: r =>
      if String.eqb (idOf d) id then f d :: r else d :: findByIdAndUpdate id f r
  end.

Definition updateMany (p : D -> bool) (f : D -> D) (l : list D) : list D :=
  map (fun d => if p d then f d else d) l.

Fixpoint deleteOne (p : D -> bool) (l : list D) : list D :=
  match l with
  | [] => []
  | d :: r => if p d then r else d :: deleteOne p r
  end.

Definition countDocuments (p : D -> bool) (l : list D) : Z :=
  Z.of_nat (List.length (filter p l)).

(** [save] of a new document: refused when the [_id] is taken or when a
    unique index [uniq] already holds an equal key. *)
Definition insertOne (uniq : D -> D -> bool) (d : D) (l : list D)
  : option (list D) :=
  if existsb (fun e => String.eqb (idOf e) (idOf d) || uniq e d) l then None
  else Some (l ++ [d]).
End Collection.

(** ** Documents *)

Definition Date := Z.

Module User.
Record Stats := mkStats { followers : Z; following : Z }.
Record t := mk { _id : ObjectId; email : string; role : string; stats : Stats }.

Definition inc_following (k : Z) (u : t) : t :=
  mk (_id u) (email u) (role u)
     (mkStats (followers (stats u)) (following (stats u) + k)).
Definition inc_followers (k : Z) (u : t) : t :=
  mk (_id u) (email u) (role u)
     (mkStats (followers (stats u) + k) (following (stats u))).
End User.

Module Project.
Record Stats := mkStats { likes : Z; comments : Z; views : Z }.
Record t := mk { _id : ObjectId; authorId : ObjectId; stats : Stats }.
End Project.

Inductive LikeableType := project | comment.

Definition LikeableType_eqb (a b : LikeableType) : bool :=
  match a, b with
  | project, project | comment, comment => true
  | _, _ => false
  end.

Module Like.
Record t := mk
  { _id : ObjectId; userId : ObjectId; targetId : ObjectId;
    targetType : LikeableType }.

(** The unique compound index on (userId, targetId, targetType). *)
Definition unique_index (a b : t) : bool :=
  String.eqb (userId a) (userId b) && String.eqb (targetId a) (targetId b)
  && LikeableType_eqb (targetType a) (targetType b).
End Like.

Module Follow.
Record t := mk
  { _id : ObjectId; followerId : ObjectId; followingId : ObjectId }.

(** The unique compound index on (followerId, followingId). *)
Definition unique_index (a b : t) : bool :=
  String.eqb (followerId a) (followerId b)
  && String.eqb (followingId a) (followingId b).

Definition canUserFollow (followerId followingId : ObjectId) : bool :=
  negb (String.eqb followerId followingId).
End Follow.

Module Comment.
Record Stats := mkStats { likes : Z; replies : Z; reportCount : Z }.
Record Metadata := mkMetadata
  { isEdited : bool; isPinned : bool; isHidden : bool; depth : Z }.
Record t := mk
  { _id : ObjectId;
    content : JSString;
    authorId : ObjectId;
    projectId : ObjectId;
    parentCommentId : option ObjectId;
    stats : Stats;
    metadata : Metadata;
    isActive : bool;
    createdAt : Date;
    updatedAt : Date }.

Definition MAX_COMMENT_LENGTH : Z := 2000.
Definition MIN_COMMENT_LENGTH : Z := 1.
Definition MAX_THREAD_DEPTH : Z := 5.

Definition validateCommentContent (c : JSString) : bool :=
  let trimmedContent := trim c in
  (MIN_COMMENT_LENGTH <=? js_length trimmedContent)
  && (js_length trimmedContent <=? MAX_COMMENT_LENGTH).

Definition validateThreadDepth (d : Z) : bool :=
  (0 <=? d) && (d <=? MAX_THREAD_DEPTH).

Definition calculateCommentDepth (parentComment : option t) : Z :=
  match parentComment with
  | None => 0
  | Some p => Z.min (depth (metadata p) + 1) MAX_THREAD_DEPTH
  end.

Definition canReplyToComment (c : t) : bool :=
  (depth (metadata c) <? MAX_THREAD_DEPTH) && isActive c
  && negb (isHidden (metadata c)).

(** Field updates; each one leaves every other field as it is. *)
Definition set_updatedAt (now : Date) (c : t) : t :=
  mk (_id c) (content c) (authorId c) (projectId c) (parentCommentId c)
     (stats c) (metadata c) (isActive c) (createdAt c) now.

Definition inc_likes (k : Z) (c : t) : t :=
  mk (_id c) (content c) (authorId c) (projectId c) (parentCommentId c)
     (mkStats (likes (stats c) + k) (replies (stats c))
              (reportCount (stats c)))
     (metadata c) (isActive c) (createdAt c) (updatedAt c).

Definition inc_replies (k : Z) (c : t) : t :=
  mk (_id c) (content c) (authorId c) (projectId c) (parentCommentId c)
     (mkStats (likes (stats c)) (replies (stats c) + k)
              (reportCount (stats c)))
     (metadata c) (isActive c) (createdAt c) (updatedAt c).

(** The update [{ isActive: false, content: '[Comment deleted]' }]. *)
Definition tombstone : JSString := js "[Comment deleted]".

Definition soft_delete (c : t) : t :=
  mk (_id c) tombstone (authorId c) (projectId c) (parentCommentId c)
     (stats c) (metadata c) false (createdAt c) (updatedAt c).

(** The update [{ content, 'metadata.isEdited': true }]. *)
Definition edit (new_content : JSString) (c : t) : t :=
  mk (_id c) new_content (authorId c) (projectId c) (parentCommentId c)
     (stats c)
     (mkMetadata true (isPinned (metadata c)) (isHidden (metadata c))
                 (depth (metadata c)))
     (isActive c) (createdAt c) (updatedAt c).

(** Validation run by [save]: [content] is required, trimmed by its setter,
    and has between MIN_COMMENT_LENGTH and MAX_COMMENT_LENGTH code units;
    [metadata.depth] is at most MAX_THREAD_DEPTH. *)
Definition schema_valid (c : t) : bool :=
  (MIN_COMMENT_LENGTH <=? js_length (content c))
  && (js_length (content c) <=? MAX_COMMENT_LENGTH)
  && (depth (metadata c) <=? MAX_THREAD_DEPTH).
End Comment.

(** ** The database *)

Record DB := mkDB
  { users : list User.t;
    projects : list Project.t;
    comments : list Comment.t;
    likes : list Like.t;
    follows : list Follow.t }.

Definition with_comments (db : DB) (cs : list Comment.t) : DB :=
  mkDB (users db) (projects db) cs (likes db) (follows db).
Definition with_likes (db : DB) (ls : list Like.t) : DB :=
  mkDB (users db) (projects db) (comments db) ls (follows db).
Definition with_users (db : DB) (us : list User.t) : DB :=
  mkDB us (projects db) (comments db) (likes db) (follows db).
Definition with_follows (db : DB) (fs : list Follow.t) : DB :=
  mkDB (users db) (projects db) (comments db) (likes db) fs.

(** ** Requests and responses *)

(** [NextResponse.json(body)] and [NextResponse.json({ error }, { status })]. *)
Inductive Response (A : Type) : Type :=
| Json (status : Z) (body : A)
| Error (status : Z) (error : string).
Arguments Json {A} status body.
Arguments Error {A} status error.

(** [session?.user?.email]: absent, or the e-mail of the signed-in user. *)
Definition Session := option string.

Definition session_email (s : Session) : option string :=
  match s with
  | Some e => if String.eqb e "" then None else Some e
  | None => None
  end.

Definition findUserByEmail (e : string) (db : DB) : option User.t :=
  findOne (fun u => String.eqb (User.email u) e) (users db).

(** The clock: [now k] is the time read by the [k]-th statement of a handler
    that stamps a document. *)
Definition Clock := nat -> Date.

(** ** Handlers

    A handler runs against the database and ends with a response; a failed
    check or a caught exception ends it with an error response and leaves the
    writes made so far in place (there is no transaction). *)
Definition M (A : Type) : Type := DB -> Response A * DB.

Definition ret {A} (a : A) : M A := fun db => (Json 200 a, db).
Definition respond {A} (status : Z) (a : A) : M A :=
  fun db => (Json status a, db).
Definition fail {A} (status : Z) (e : string) : M A :=
  fun db => (Error status e, db).
Definition bind {A B} (m : M A) (k : A -> M B) : M B :=
  fun db =>
    match m db with
    | (Json _ a, db') => k a db'
    | (Error st e, db') => (Error st e, db')
    end.
Definition get : M DB := fun db => (Json 200 db, db).
Definition modify (f : DB -> DB) : M unit := fun db => (Json 200 tt, f db).

Notation "x <- m ;; k" := (bind m (fun x => k))
  (at level 61, m at next level, right associativity).
Notation "m ;; k" := (bind m (fun _ => k))
  (at level 61, right associativity).

(** [if (c) return NextResponse.json({ error }, { status })]. *)
Definition reject_if (c : bool) (status : Z) (e : string) : M unit :=
  if c then fail status e else ret tt.

(** [if (!x) return NextResponse.json({ error }, { status })]. *)
Definition require {A} (o : option A) (status : Z) (e : string) : M A :=
  match o with
  | Some a => ret a
  | None => fail status e
  end.

(** The [catch] block of every handler. *)
Definition internal_error {A} : M A := fail 500 "Internal server error".

Definition update_comments (f : list Comment.t -> list Comment.t) : M unit :=
  modify (fun db => with_comments db (f (comments db))).
Definition update_users (f : list User.t -> list User.t) : M unit :=
  modify (fun db => with_users db (f (users db))).
Definition update_likes (f : list Like.t -> list Like.t) : M unit :=
  modify (fun db => with_likes db (f (likes db))).
Definition update_follows (f : list Follow.t -> list Follow.t) : M unit :=
  modify (fun db => with_follows db (f (follows db))).

(** The steps every handler starts with: the session, the user behind it. *)
Definition signed_in (session : Session) : M string :=
  require (session_email session) 401 "Unauthorized".

Definition current_user (email : string) : M User.t :=
  db <- get ;; require (findUserByEmail email db) 404 "User not found".

(** ** Comments: /api/projects/[id]/comments *)

(** A field of a JSON request body that the handler uses as a string. *)
Inductive BodyValue :=
| Absent                 (* undefined, null and the other falsy non-strings *)
| Text (s : JSString)
| NotText.               (* a truthy value that is not a string *)

Record CommentBody := mkCommentBody
  { body_content : BodyValue; body_parentCommentId : option string }.

(** The two content checks that POST and PUT share. *)
Definition validate_content (v : BodyValue) : M JSString :=
  match v with
  | Absent => fail 400 "Comment content is required"
  | NotText => internal_error
  | Text content =>
      reject_if ((js_length content =? 0) || (js_length (trim content) =? 0))
                400 "Comment content is required" ;;
      reject_if (js_length content >? 2000)
                400 "Comment content is too long (max 2000 characters)" ;;
      ret content
  end.

(** [if (parentCommentId)]: an empty string is falsy. *)
Definition given (p : option string) : option string :=
  match p with
  | Some s => if String.eqb s "" then None else Some s
  | None => None
  end.

(** [newComment.save()]: the document is validated against the schema and
    inserted.  The content was trimmed by the handler, so the [trim] setter of
    the schema finds nothing more to remove. *)
Definition save_comment (c : Comment.t) : M unit :=
  db <- get ;;
  if Comment.schema_valid c then
    match insertOne Comment._id (fun _ _ => false) c (comments db) with
    | Some cs => update_comments (fun _ => cs)
    | None => internal_error
    end
  else internal_error.

(** [findByIdAndUpdate(id, { $inc: { 'stats.replies': k } })]; the schema has
    [timestamps: true], so the update also sets updatedAt. *)
Definition stamp_replies (k : Z) (now : Date) (c : Comment.t) : Comment.t :=
  Comment.set_updatedAt now (Comment.inc_replies k c).

Definition comments_POST (session : Session) (projectId : string)
    (body : CommentBody) (newId : ObjectId) (now : Clock)
  : M (option Comment.t) :=
  email <- signed_in session ;;
  reject_if (negb (isValid projectId)) 400 "Invalid project ID" ;;
  user <- current_user email ;;
  db <- get ;;
  _ <- require (findById Project._id (toObjectId projectId) (projects db))
               404 "Project not found" ;;
  content <- validate_content (body_content body) ;;
  depth <-
    match given (body_parentCommentId body) with
    | Some parentCommentId =>
        reject_if (negb (isValid parentCommentId))
                  400 "Invalid parent comment ID" ;;
        parentComment <-
          require (findById Comment._id (toObjectId parentCommentId)
                            (comments db))
                  404 "Parent comment not found" ;;
        reject_if (negb (String.eqb (Comment.projectId parentComment)
                                    projectId))
                  400 "Parent comment does not belong to this project" ;;
        let depth := Comment.depth (Comment.metadata parentComment) + 1 in
        reject_if (depth >? 5) 400 "Maximum comment depth exceeded" ;;
        ret depth
    | None => ret 0
    end ;;
  let newComment :=
    Comment.mk newId (trim content) (User._id user) (toObjectId projectId)
      (option_map toObjectId (given (body_parentCommentId body)))
      (Comment.mkStats 0 0 0)
      (Comment.mkMetadata false false false depth)
      true (now 0%nat) (now 0%nat) in
  save_comment newComment ;;
  match given (body_parentCommentId body) with
  | Some parentCommentId =>
      update_comments
        (findByIdAndUpdate Comment._id (toObjectId parentCommentId)
                           (stamp_replies 1 (now 1%nat)))
  | None => ret tt
  end ;;
  db' <- get ;;
  respond 201 (findById Comment._id newId (comments db')).

(** ** Comments: /api/projects/[id]/comments/[commentId] *)

(** The update [{ content, 'metadata.isEdited': true, updatedAt: new Date() }]. *)
Definition stamp_edit (content : JSString) (now : Date) (c : Comment.t)
  : Comment.t :=
  Comment.set_updatedAt now (Comment.edit content c).

Definition comment_PUT (session : Session) (commentId : string)
    (content : BodyValue) (now : Clock) : M (option Comment.t) :=
  email <- signed_in session ;;
  reject_if (negb (isValid commentId)) 400 "Invalid comment ID" ;;
  user <- current_user email ;;
  db <- get ;;
  comment <- require (findById Comment._id (toObjectId commentId)
                               (comments db))
                     404 "Comment not found" ;;
  reject_if (negb (String.eqb (Comment.authorId comment) (User._id user)))
            403 "You can only edit your own comments" ;;
  content <- validate_content content ;;
  update_comments
    (findByIdAndUpdate Comment._id (toObjectId commentId)
                       (stamp_edit (trim content) (now 0%nat))) ;;
  db' <- get ;;
  updatedComment <-
    require (findById Comment._id (toObjectId commentId) (comments db'))
            404 "Comment not found after update" ;;
  respond 200 (findById Comment._id (Comment._id updatedComment)
                        (comments db')).

(** The update [{ isActive: false, content: '[Comment deleted]',
    updatedAt: new Date() }]. *)
Definition stamp_delete (now : Date) (c : Comment.t) : Comment.t :=
  Comment.set_updatedAt now (Comment.soft_delete c).

Definition is_reply_to (id : ObjectId) (c : Comment.t) : bool :=
  match Comment.parentCommentId c with
  | Some p => String.eqb p id
  | None => false
  end.

Definition comment_DELETE (session : Session) (commentId : string)
    (now : Clock) : M unit :=
  email <- signed_in session ;;
  reject_if (negb (isValid commentId)) 400 "Invalid comment ID" ;;
  user <- current_user email ;;
  db <- get ;;
  comment <- require (findById Comment._id (toObjectId commentId)
                               (comments db))
                     404 "Comment not found" ;;
  reject_if (negb (String.eqb (Comment.authorId comment) (User._id user))
             && negb (String.eqb (User.role user) "admin"))
            403 "You can only delete your own comments" ;;
  update_comments
    (findByIdAndUpdate Comment._id (toObjectId commentId)
                       (stamp_delete (now 0%nat))) ;;
  match Comment.parentCommentId comment with
  | Some parent =>
      update_comments
        (findByIdAndUpdate Comment._id parent (stamp_replies (-1) (now 1%nat)))
  | None => ret tt
  end ;;
  update_comments
    (updateMany (is_reply_to (toObjectId commentId))
                (stamp_delete (now 2%nat))) ;;
  respond 200 tt.

Fixpoint insert_by {A} (key : A -> Z) (ascending : bool) (x : A) (l : list A)
  : list A :=
  match l with
  | [] => [x]
  | y :: r =>
      if (if ascending then key x <=? key y else key y <=? key x)
      then x :: l else y :: insert_by key ascending x r
  end.

(** [$sort]; documents with equal keys stay in their order. *)
Definition sort_by {A} (key : A -> Z) (ascending : bool) (l : list A)
  : list A :=
  fold_right (insert_by key ascending) [] l.

(** [$lookup] of the author followed by [$unwind]: one output per author
    found, none when the author is missing. *)
Definition with_author (us : list User.t) (cs : list Comment.t)
  : list (Comment.t * User.t) :=
  flat_map
    (fun c =>
       map (fun u => (c, u))
           (filter (fun u => String.eqb (User._id u) (Comment.authorId c)) us))
    cs.

(** GET of one comment: the comment, when it is active and its author exists,
    with its active replies, oldest first. *)
Definition comment_GET (session : Session) (commentId : string)
  : M (Comment.t * list Comment.t) :=
  email <- signed_in session ;;
  reject_if (negb (isValid commentId)) 400 "Invalid comment ID" ;;
  db <- get ;;
  let found :=
    with_author (users db)
      (filter (fun c => String.eqb (Comment._id c) (toObjectId commentId)
                        && Comment.isActive c)
              (comments db)) in
  match found with
  | [] => fail 404 "Comment not found"
  | (c, _) :: _ =>
      let replies :=
        with_author (users db)
          (filter (fun r => is_reply_to (Comment._id c) r && Comment.isActive r)
                  (comments db)) in
      respond 200 (c, sort_by Comment.createdAt true (map fst replies))
  end.

(** GET of the top-level comments of a project. *)
Record CommentView := mkView
  { view_id : ObjectId;
    view_content : JSString;
    view_metadata : Comment.Metadata;
    view_createdAt : Date;
    view_updatedAt : Date;
    view_likes : Z;
    view_replies : Z;
    view_author : ObjectId }.

(** The documented values of [sortBy] and [sortOrder]. *)
Inductive SortBy := SortCreatedAt | SortLikes.
Inductive SortOrder := asc | desc.

(** [page] and [limit] after [parseInt]; [None] is NaN. *)
Record ListQuery := mkListQuery
  { page : option Z; limit : option Z; sortBy : SortBy;
    sortOrder : SortOrder }.

Definition is_top_level_of (projectId : ObjectId) (c : Comment.t) : bool :=
  String.eqb (Comment.projectId c) projectId
  && match Comment.parentCommentId c with None => true | Some _ => false end
  && Comment.isActive c.

(** The second [$lookup] with [$addFields]: the comments whose
    [parentCommentId] is this comment, counted by [$size]. *)
Definition repliesCount (cs : list Comment.t) (c : Comment.t) : Z :=
  Z.of_nat (List.length (filter (is_reply_to (Comment._id c)) cs)).

Definition view_of (cs : list Comment.t) (cu : Comment.t * User.t)
  : CommentView :=
  let (c, u) := cu in
  mkView (Comment._id c) (Comment.content c) (Comment.metadata c)
         (Comment.createdAt c) (Comment.updatedAt c)
         (Comment.likes (Comment.stats c)) (repliesCount cs c) (User._id u).

Definition sort_key (s : SortBy) (v : CommentView) : Z :=
  match s with
  | SortLikes => view_likes v
  | SortCreatedAt => view_createdAt v
  end.

Definition comments_GET (session : Session) (projectId : string)
    (q : ListQuery) : M (list CommentView * Z) :=
  email <- signed_in session ;;
  reject_if (negb (isValid projectId)) 400 "Invalid project ID" ;;
  db <- get ;;
  _ <- require (findById Project._id (toObjectId projectId) (projects db))
               404 "Project not found" ;;
  match page q, limit q with
  | Some page, Some limit =>
      let skip := (page - 1) * limit in
      if (skip <? 0) || (limit <=? 0) then internal_error
      else
        let matched :=
          filter (is_top_level_of (toObjectId projectId)) (comments db) in
        let views :=
          map (view_of (comments db)) (with_author (users db) matched) in
        let sorted :=
          sort_by (sort_key (sortBy q))
                  match sortOrder q with asc => true | desc => false end
                  views in
        let totalComments :=
          countDocuments (is_top_level_of (toObjectId projectId))
                         (comments db) in
        respond 200
          (firstn (Z.to_nat limit) (skipn (Z.to_nat skip) sorted),
           totalComments)
  | _, _ => internal_error
  end.

(** ** Likes *)

Definition is_like_of (user target : ObjectId) (ty : LikeableType)
    (l : Like.t) : bool :=
  String.eqb (Like.userId l) user && String.eqb (Like.targetId l) target
  && LikeableType_eqb (Like.targetType l) ty.

Definition is_like_on (target : ObjectId) (ty : LikeableType) (l : Like.t)
  : bool :=
  String.eqb (Like.targetId l) target
  && LikeableType_eqb (Like.targetType l) ty.

Definition has_id (id : ObjectId) (l : Like.t) : bool :=
  String.eqb (Like._id l) id.

(** [newLike.save()]. *)
Definition save_like (l : Like.t) : M unit :=
  db <- get ;;
  match insertOne Like._id Like.unique_index l (likes db) with
  | Some ls => update_likes (fun _ => ls)
  | None => internal_error
  end.

(** POST /api/projects/[id]/like. *)
Definition project_like_POST (session : Session) (projectId : string)
    (newId : ObjectId) : M bool :=
  email <- signed_in session ;;
  reject_if (negb (isValid projectId)) 400 "Invalid project ID" ;;
  user <- current_user email ;;
  db <- get ;;
  _ <- require (findById Project._id (toObjectId projectId) (projects db))
               404 "Project not found" ;;
  match findOne (is_like_of (User._id user) (toObjectId projectId) project)
                (likes db) with
  | Some existingLike =>
      update_likes (deleteOne (has_id (Like._id existingLike))) ;;
      respond 200 false
  | None =>
      save_like (Like.mk newId (User._id user) (toObjectId projectId) project) ;;
      respond 200 true
  end.

(** [findByIdAndUpdate(id, { $inc: { 'stats.likes': k } })], which sets
    updatedAt as well. *)
Definition stamp_likes (k : Z) (now : Date) (c : Comment.t) : Comment.t :=
  Comment.set_updatedAt now (Comment.inc_likes k c).

(** POST /api/projects/[id]/comments/[commentId]/like; the payload is
    [liked] and [likesCount]. *)
Definition comment_like_POST (session : Session) (commentId : string)
    (newId : ObjectId) (now : Clock) : M (bool * Z) :=
  email <- signed_in session ;;
  reject_if (negb (isValid commentId)) 400 "Invalid comment ID" ;;
  user <- current_user email ;;
  db <- get ;;
  _ <- require (findById Comment._id (toObjectId commentId) (comments db))
               404 "Comment not found" ;;
  liked <-
    match findOne (is_like_of (User._id user) (toObjectId commentId) comment)
                  (likes db) with
    | Some existingLike =>
        update_likes (deleteOne (has_id (Like._id existingLike))) ;;
        update_comments
          (findByIdAndUpdate Comment._id (toObjectId commentId)
                             (stamp_likes (-1) (now 0%nat))) ;;
        ret false
    | None =>
        save_like
          (Like.mk newId (User._id user) (toObjectId commentId) comment) ;;
        update_comments
          (findByIdAndUpdate Comment._id (toObjectId commentId)
                             (stamp_likes 1 (now 0%nat))) ;;
        ret true
    end ;;
  db' <- get ;;
  match findById Comment._id (toObjectId commentId) (comments db') with
  | Some updatedComment =>
      respond 200 (liked, Comment.likes (Comment.stats updatedComment))
  | None => internal_error
  end.

(** GET /api/projects/[id]: the project of the signed-in author with its
    likes and comments counted from the Like and Comment collections.  An
    [id] that is not an ObjectId fails the cast of the query, which the
    [catch] block answers. *)
Definition project_GET (session : Session) (id : string)
  : M Project.Stats :=
  email <- signed_in session ;;
  user <- current_user email ;;
  db <- get ;;
  if isValid id then
    _ <- require
           (findOne (fun p => String.eqb (Project._id p) (toObjectId id)
                              && String.eqb (Project.authorId p)
                                            (User._id user))
                    (projects db))
           404 "Project not found or access denied" ;;
    let likesCount :=
      countDocuments (is_like_on (toObjectId id) project) (likes db) in
    let commentsCount :=
      countDocuments
        (fun c => String.eqb (Comment.projectId c) (toObjectId id))
        (comments db) in
    respond 200 (Project.mkStats likesCount commentsCount 0)
  else internal_error.

(** ** Follows: POST /api/user/[userId]/follow *)

Record FollowResult := mkFollowResult
  { isFollowing : bool; followersCount : Z }.

Definition is_follow_of (follower following : ObjectId) (f : Follow.t)
  : bool :=
  String.eqb (Follow.followerId f) follower
  && String.eqb (Follow.followingId f) following.

(** [newFollow.save()]. *)
Definition save_follow (f : Follow.t) : M unit :=
  db <- get ;;
  match insertOne Follow._id Follow.unique_index f (follows db) with
  | Some fs => update_follows (fun _ => fs)
  | None => internal_error
  end.

(** The two [findByIdAndUpdate] calls under [Promise.all]; each is one atomic
    [$inc], on different fields, so their order does not matter. *)
Definition update_follow_counts (actor target : ObjectId) (k : Z) : M unit :=
  update_users (findByIdAndUpdate User._id actor (User.inc_following k)) ;;
  update_users (findByIdAndUpdate User._id target (User.inc_followers k)).

Definition follow_POST (session : Session) (userId : string)
    (newId : ObjectId) : M FollowResult :=
  email <- signed_in session ;;
  reject_if (negb (isValid userId)) 400 "Invalid user ID" ;;
  currentUser <- current_user email ;;
  db <- get ;;
  _ <- require (findById User._id (toObjectId userId) (users db))
               404 "Target user not found" ;;
  reject_if (String.eqb (User._id currentUser) userId)
            400 "You cannot follow yourself" ;;
  isFollowing <-
    match findOne (is_follow_of (User._id currentUser) (toObjectId userId))
                  (follows db) with
    | Some existingFollow =>
        update_follows
          (deleteOne
             (fun f => String.eqb (Follow._id f) (Follow._id existingFollow))) ;;
        update_follow_counts (User._id currentUser) (toObjectId userId) (-1) ;;
        ret false
    | None =>
        save_follow
          (Follow.mk newId (User._id currentUser) (toObjectId userId)) ;;
        update_follow_counts (User._id currentUser) (toObjectId userId) 1 ;;
        ret true
    end ;;
  db' <- get ;;
  match findById User._id (toObjectId userId) (users db') with
  | Some updatedTargetUser =>
      respond 200
        (mkFollowResult isFollowing
                        (User.followers (User.stats updatedTargetUser)))
  | None => internal_error
  end.

(** ** Threads, toggles and counters: the vocabulary of the properties *)

(** [descends_from n cs a c]: following [parentCommentId] from [c] reaches the
    comment [a] within [n] steps. *)
Fixpoint descends_from (fuel : nat) (cs : list Comment.t) (a : ObjectId)
    (c : Comment.t) : bool :=
  match fuel with
  | O => false
  | S fuel' =>
      match Comment.parentCommentId c with
      | None => false
      | Some p =>
          String.eqb p a
          || match findById Comment._id p cs with
             | Some pc => descends_from fuel' cs a pc
             | None => false
             end
      end
  end.

Definition is_descendant (cs : list Comment.t) (a : ObjectId) (c : Comment.t)
  : bool :=
  descends_from (List.length cs) cs a c.

(** The comment [id] is inactive and carries the tombstone marker. *)
Definition tombstoned (cs : list Comment.t) (id : ObjectId) : Prop :=
  exists c, findById Comment._id id cs = Some c
            /\ Comment.isActive c = false
            /\ Comment.content c = Comment.tombstone.

(** Every comment of the subtree under [target], [target] included, is
    tombstoned in [db']. *)
Definition cascade_complete (db db' : DB) (target : ObjectId) : Prop :=
  forall c, In c (comments db) ->
    String.eqb (Comment._id c) target
    || is_descendant (comments db) target c = true ->
    tombstoned (comments db') (Comment._id c).

(** The active direct children of a comment, counted at read time. *)
Definition active_replies_count (cs : list Comment.t) (id : ObjectId) : Z :=
  countDocuments (fun r => is_reply_to id r && Comment.isActive r) cs.

(** No active comment has an inactive parent. *)
Definition no_active_reply_to_inactive (cs : list Comment.t) : Prop :=
  forall c p pc,
    In c cs -> Comment.isActive c = true ->
    Comment.parentCommentId c = Some p ->
    findById Comment._id p cs = Some pc ->
    Comment.isActive pc = true.

(** What a request on a project needs from the database: the user behind the
    session and the project. *)
Definition serves (email : string) (user : User.t) (projectId : string)
    (db : DB) : Prop :=
  findUserByEmail email db = Some user
  /\ findById Project._id (toObjectId projectId) (projects db) <> None.

(** A chain of replies: each reply is posted under the comment created by the
    one before, the first under [parent]; the chain ends with the first reply
    that is refused. *)
Fixpoint reply_chain (session : Session) (projectId : string)
    (content : BodyValue) (parent : string) (ids : list ObjectId)
    (now : Clock) (db : DB) : list (Response (option Comment.t)) :=
  match ids with
  | [] => []
  | id :: rest =>
      let (r, db') :=
        comments_POST session projectId
                      (mkCommentBody content (Some parent)) id now db in
      r :: match r with
           | Json _ _ => reply_chain session projectId content id rest now db'
           | Error _ _ => []
           end
  end.

Definition DepthExceeded : Response (option Comment.t) :=
  Error 400 "Maximum comment depth exceeded".

(** The [k]-th reply of the chain (counted from 1) was created at depth [d]. *)
Definition created_at_depth (rs : list (Response (option Comment.t)))
    (k : nat) (d : Z) : Prop :=
  exists c, nth_error rs (k - 1) = Some (Json 201 (Some c))
            /\ Comment.depth (Comment.metadata c) = d.

(** The chain fails at its [k]-th reply (counted from 1), with DepthExceeded,
    and at no earlier one. *)
Definition fails_exactly_at (rs : list (Response (option Comment.t)))
    (k : nat) : Prop :=
  nth_error rs (k - 1) = Some DepthExceeded
  /\ forall j, (1 <= j < k)%nat -> created_at_depth rs j (Z.of_nat j).

(** [n] toggles in sequence by one user on one target; every call comes with
    the ObjectId its Like would get and, for a comment, its clock. *)
Fixpoint comment_like_n (session : Session) (commentId : string)
    (calls : list (ObjectId * Clock)) (db : DB) : DB :=
  match calls with
  | [] => db
  | (id, now) :: rest =>
      comment_like_n session commentId rest
        (snd (comment_like_POST session commentId id now db))
  end.

Fixpoint project_like_n (session : Session) (projectId : string)
    (calls : list ObjectId) (db : DB) : DB :=
  match calls with
  | [] => db
  | id :: rest =>
      project_like_n session projectId rest
        (snd (project_like_POST session projectId id db))
  end.

(** What one toggle by [user] does to the Like collection: the user's Like on
    the target is deleted, or a Like with the id [newId] is added. *)
Definition toggle_rows (user target : ObjectId) (ty : LikeableType)
    (newId : ObjectId) (ls : list Like.t) : list Like.t :=
  match findOne (is_like_of user target ty) ls with
  | Some existingLike => deleteOne (has_id (Like._id existingLike)) ls
  | None => ls ++ [Like.mk newId user target ty]
  end.

Definition is_liked (db : DB) (user target : ObjectId) (ty : LikeableType)
  : bool :=
  existsb (is_like_of user target ty) (likes db).

(** The recomputed aggregate: the Like rows of a target. *)
Definition count_likes (db : DB) (target : ObjectId) (ty : LikeableType) : Z :=
  countDocuments (is_like_on target ty) (likes db).

(** The stored counter of the owning entity. *)
Definition stored_likes (db : DB) (target : ObjectId) (ty : LikeableType)
  : option Z :=
  match ty with
  | project =>
      option_map (fun p => Project.likes (Project.stats p))
                 (findById Project._id target (projects db))
  | comment =>
      option_map (fun c => Comment.likes (Comment.stats c))
                 (findById Comment._id target (comments db))
  end.

Definition counter_agrees (db : DB) (target : ObjectId) (ty : LikeableType)
  : Prop :=
  stored_likes db target ty = Some (count_likes db target ty).

(** No Like row is on [target], and its stored counter is 0. *)
Definition clean (db : DB) (target : ObjectId) (ty : LikeableType) : Prop :=
  count_likes db target ty = 0 /\ stored_likes db target ty = Some 0.

Definition odd_calls {A} (calls : list A) : bool :=
  Nat.odd (List.length calls).

(** The ObjectIds of [ids] are new to a collection with the ids [used], and
    distinct. *)
Definition fresh (ids used : list ObjectId) : Prop :=
  NoDup ids /\ forall id, In id ids -> ~ In id used.

Definition stored_following (db : DB) (id : ObjectId) : option Z :=
  option_map (fun u => User.following (User.stats u))
             (findById User._id id (users db)).

Definition stored_followers (db : DB) (id : ObjectId) : option Z :=
  option_map (fun u => User.followers (User.stats u))
             (findById User._id id (users db)).

Definition plus_if (b : bool) (k : Z) (o : option Z) : option Z :=
  option_map (fun n => if b then n + k else n) o.

(** ** A small database to run the handlers on *)

Module Sample.
Definition alice : User.t :=
  User.mk "aaaaaaaaaaaaaaaaaaaaaaaa" "alice@example.com" "user"
          (User.mkStats 0 0).
Definition bob : User.t :=
  User.mk "bbbbbbbbbbbbbbbbbbbbbbbb" "bob@example.com" "user"
          (User.mkStats 0 0).

Definition p1 : ObjectId := "000000000000000000000001".
Definition idA : ObjectId := "0000000000000000000000c1".
Definition idB : ObjectId := "0000000000000000000000c2".
Definition idC : ObjectId := "0000000000000000000000c3".
Definition idD : ObjectId := "0000000000000000000000c4".
Definition idE : ObjectId := "0000000000000000000000c5".
Definition idL : ObjectId := "0000000000000000000000f1".

Definition reply_of (id : ObjectId) (text : string)
    (parent : option ObjectId) (replies depth : Z) : Comment.t :=
  Comment.mk id (js text) (User._id alice) p1 parent
             (Comment.mkStats 0 replies 0)
             (Comment.mkMetadata false false false depth) true 100 100.

(** The thread A -> B -> C -> D on project p1. *)
Definition db : DB :=
  mkDB [alice; bob]
       [Project.mk p1 (User._id alice) (Project.mkStats 0 0 0)]
       [reply_of idA "Nice work" None 1 0;
        reply_of idB "Thanks for the feedback" (Some idA) 1 1;
        reply_of idC "Agreed" (Some idB) 1 2;
        reply_of idD "Same here" (Some idC) 0 3]
       [] [].

Definition as_alice : Session := Some "alice@example.com".
Definition as_bob : Session := Some "bob@example.com".

Definition at_time (t : Date) : Clock := fun _ => t.

(** The database after alice has deleted A, and B. *)
Definition after_delete_A : DB :=
  snd (comment_DELETE as_alice idA (at_time 200) db).
Definition after_delete_B : DB :=
  snd (comment_DELETE as_alice idB (at_time 200) db).

(** The database after alice has deleted the leaf D. *)
Definition after_delete_D : DB :=
  snd (comment_DELETE as_alice idD (at_time 200) db).

Definition first_page : ListQuery :=
  mkListQuery (Some 1) (Some 20) SortCreatedAt desc.

Definition new_ids : list ObjectId :=
  ["0000000000000000000000d1"; "0000000000000000000000d2";
   "0000000000000000000000d3"; "0000000000000000000000d4";
   "0000000000000000000000d5"; "0000000000000000000000d6"].

(** One letter followed by 2000 spaces: 2001 code units, 1 after trim. *)
Definition padded : JSString := 97%N :: repeat 32%N 2000.
End Sample.

(** ** The route guard (middleware.ts) *)

(** [pathname.startsWith(route)]. *)
Definition startsWith (pathname route : string) : bool :=
  String.prefix route pathname.

Definition protectedRoutes : list (string * list string) :=
  [("/admin-dashboard", ["admin"]);
   ("/manager-dashboard", ["admin"; "moderator"]);
   ("/user-dashboard", ["admin"; "moderator"; "user"]);
   ("/api/admin", ["admin"]);
   ("/api/moderator", ["admin"; "moderator"])].

Definition publicRoutes : list string :=
  ["/"; "/auth/login"; "/auth/register"; "/auth/forgot-password";
   "/auth/reset-password"; "/auth/verify-email"; "/auth/error"; "/api/auth";
   "/api/register"; "/api/auth/forgot-password"; "/api/auth/reset-password";
   "/api/auth/verify-email"; "/projects"; "/api/projects*"].

(** [route.endsWith("*")] and [route.slice(0, -1)]. *)
Fixpoint endsWithStar (route : string) : bool :=
  match route with
  | EmptyString => false
  | String a EmptyString => Ascii.eqb a "*"
  | String _ r => endsWithStar r
  end.

Fixpoint dropLast (route : string) : string :=
  match route with
  | EmptyString => EmptyString
  | String _ EmptyString => EmptyString
  | String a r => String a (dropLast r)
  end.

Definition isPublicRoute (pathname : string) : bool :=
  existsb
    (fun route =>
       if endsWithStar route then startsWith pathname (dropLast route)
       else String.eqb pathname route
            || startsWith pathname (String.append route "/"))
    publicRoutes.

(** The loop over [Object.entries(protectedRoutes)]: the first route that the
    path starts with decides. *)
Fixpoint hasRequiredRole_in (routes : list (string * list string))
    (userRole pathname : string) : bool :=
  match routes with
  | [] => true
  | (route, allowedRoles) :: rest =>
      if startsWith pathname route
      then existsb (String.eqb userRole) allowedRoles
      else hasRequiredRole_in rest userRole pathname
  end.

Definition hasRequiredRole (userRole pathname : string) : bool :=
  hasRequiredRole_in protectedRoutes userRole pathname.

Definition getRoleBasedRedirect (userRole : string) : string :=
  if String.eqb userRole "admin" then "/admin-dashboard"
  else if String.eqb userRole "moderator" then "/manager-dashboard"
  else if String.eqb userRole "user" then "/user-dashboard"
  else "/auth/login".

(** What the middleware answers: [NextResponse.next()], or a redirect to a
    path, with the [callbackUrl] it sets on the login URL. *)
Inductive Decision :=
| Next
| RedirectTo (path : string) (callbackUrl : option string).

(** The function [middleware] that is handed to [withAuth]; [token] is the
    role in the session token, when there is a token.  It is not the whole
    default export: [withAuth] asks [authorized] first and calls this
    function only when the answer is true. *)
Definition middleware (pathname : string) (token : option string) : Decision :=
  if isPublicRoute pathname then Next
  else
    match token with
    | None => RedirectTo "/auth/login" (Some pathname)
    | Some userRole =>
        if negb (hasRequiredRole userRole pathname)
        then RedirectTo "/unauthorized" None
        else if String.eqb pathname "/"
             then RedirectTo (getRoleBasedRedirect userRole) None
             else Next
    end.

(** The [authorized] callback of [withAuth]: when it answers false the
    function above is not called, and [withAuth] answers the request
    itself. *)
Definition authorized (pathname : string) (token : option string) : bool :=
  if isPublicRoute pathname then true
  else match token with Some _ => true | None => false end.

(** ** Comment text helpers (the Comment model) *)

Definition LF : N := 10%N.

(** [replace(/\n{3,}/g, "\n\n")]: [run] is the number of line feeds just
    passed; the third and later line feeds of a run are dropped. *)
Fixpoint collapseLineBreaks (run : nat) (s : JSString) : JSString :=
  match s with
  | [] => []
  | c :: r =>
      if N.eqb c LF
      then if (run <? 2)%nat
           then c :: collapseLineBreaks (S run) r
           else collapseLineBreaks (S run) r
      else c :: collapseLineBreaks 0 r
  end.

Definition formatCommentContent (content : JSString) : JSString :=
  collapseLineBreaks 0 (trim content).

(** The character class [[a-zA-Z0-9_-]]. *)
Definition is_mention_char (c : N) : bool :=
  ((97 <=? c) && (c <=? 122) || (65 <=? c) && (c <=? 90)
   || (48 <=? c) && (c <=? 57) || (c =? 95) || (c =? 45))%N.

Definition AT : N := 64%N.

Definition emit (m : JSString) : list JSString :=
  match m with
  | [] => []
  | _ => [m]
  end.

(** The loop [while ((match = mentionRegex.exec(content)) !== null)] for
    [/@([a-zA-Z0-9_-]+)/g], read as a scan from left to right: [cur] is the
    name collected since the last [@], when the scan is right after one. *)
Fixpoint scanMentions (s : JSString) (cur : option JSString)
  : list JSString :=
  match s with
  | [] => match cur with Some m => emit m | None => [] end
  | c :: r =>
      match cur with
      | Some m =>
          if is_mention_char c then scanMentions r (Some (m ++ [c]))
          else emit m ++ scanMentions r (if N.eqb c AT then Some [] else None)
      | None => scanMentions r (if N.eqb c AT then Some [] else None)
      end
  end.

Definition JSString_eqb (a b : JSString) : bool :=
  if list_eq_dec N.eq_dec a b then true else false.

(** [[...new Set(mentions)]]: the first occurrence of every element, in
    order. *)
Fixpoint dedupe (seen l : list JSString) : list JSString :=
  match l with
  | [] => []
  | x :: r =>
      if existsb (JSString_eqb x) seen then dedupe seen r
      else x :: dedupe (x :: seen) r
  end.

Definition extractMentions (content : JSString) : list JSString :=
  dedupe [] (scanMentions content None).

(** ** Follow helpers (the Follow model) *)

Definition found {A} (o : option A) : bool :=
  match o with Some _ => true | None => false end.

Definition checkMutualFollow (userId1 userId2 : ObjectId)
    (existingFollows : list Follow.t) : bool :=
  let follow1 := find (is_follow_of userId1 userId2) existingFollows in
  let follow2 := find (is_follow_of userId2 userId1) existingFollows in
  found follow1 && found follow2.

Inductive FollowStatus :=
| status_following | status_followed_by | status_mutual | status_none.

Definition getFollowStatus (currentUserId targetUserId : ObjectId)
    (fs : list Follow.t) : FollowStatus :=
  let isFollowing := existsb (is_follow_of currentUserId targetUserId) fs in
  let isFollowedBy := existsb (is_follow_of targetUserId currentUserId) fs in
  if isFollowing && isFollowedBy then status_mutual
  else if isFollowing then status_following
  else if isFollowedBy then status_followed_by
  else status_none.

(** The same relationship seen from the other user. *)
Definition reverse_status (s : FollowStatus) : FollowStatus :=
  match s with
  | status_following => status_followed_by
  | status_followed_by => status_following
  | status_mutual => status_mutual
  | status_none => status_none
  end.

(** ** GET /api/user/follow-status *)

Record FollowStatusResult := mkFollowStatusResult
  { status_isFollowing : bool;
    status_isFollowedBy : bool;
    status_isMutual : bool;
    status_followersCount : Z;
    status_followingCount : Z }.

Definition follow_status_GET (session : Session)
    (targetUserId : option string) : M FollowStatusResult :=
  email <- signed_in session ;;
  match given targetUserId with
  | None => fail 400 "Valid user ID is required"
  | Some userId =>
      reject_if (negb (isValid userId)) 400 "Valid user ID is required" ;;
      currentUser <- current_user email ;;
      db <- get ;;
      targetUser <- require (findById User._id (toObjectId userId) (users db))
                            404 "Target user not found" ;;
      let isFollowing :=
        found (findOne (is_follow_of (User._id currentUser)
                                     (toObjectId userId)) (follows db)) in
      let isFollowedBy :=
        found (findOne (is_follow_of (toObjectId userId)
                                     (User._id currentUser)) (follows db)) in
      respond 200
        (mkFollowStatusResult isFollowing isFollowedBy
           (isFollowing && isFollowedBy)
           (User.followers (User.stats targetUser))
           (User.following (User.stats targetUser)))
  end.

(** ** More vocabulary *)

(** The two unique indexes of the Follow collection: [_id], and the compound
    index on (followerId, followingId). *)
Definition unique_follows (fs : list Follow.t) : Prop :=
  NoDup (map Follow._id fs)
  /\ NoDup (map (fun f => (Follow.followerId f, Follow.followingId f)) fs).

(** The ids of a collection are distinct, as MongoDB keeps them. *)
Definition distinct_ids (cs : list Comment.t) : Prop :=
  NoDup (map Comment._id cs).

(** A page is in the order of its sort key. *)
Fixpoint ordered_by {A} (key : A -> Z) (ascending : bool) (l : list A)
  : Prop :=
  match l with
  | [] => True
  | x :: r =>
      (forall y, In y r ->
                 if ascending then key x <= key y else key y <= key x)
      /\ ordered_by key ascending r
  end.

(** No three line feeds in a row. *)
Fixpoint no_triple_break (s : JSString) : bool :=
  match s with
  | a :: ((b :: c :: _) as r) =>
      negb (N.eqb a LF && N.eqb b LF && N.eqb c LF) && no_triple_break r
  | _ => true
  end.

(** * Properties *)

(** ** Collections *)

Section CollectionFacts.
Context {D : Type}.
Variable idOf : D -> ObjectId.

Lemma findById_id k l d : findById idOf k l = Some d -> idOf d = k.
Proof.
  unfold findById, findOne. intros H.
  apply find_some in H. destruct H as [_ H].
  now apply String.eqb_eq in H.
Qed.

Lemma findById_In k l d : findById idOf k l = Some d -> In d l.
Proof.
  unfold findById, findOne. intros H. now apply find_some in H.
Qed.

Lemma findById_None k l :
  findById idOf k l = None <-> ~ In k (map idOf l).
Proof.
  unfold findById, findOne.
  induction l as [|d r IH]; simpl.
  - tauto.
  - destruct (String.eqb_spec (idOf d) k) as [E|E].
    + split; [discriminate | intros H; elim H; now left].
    + rewrite IH. tauto.
Qed.

Lemma findById_update k x f l :
  (forall d, idOf (f d) = idOf d) ->
  findById idOf k (findByIdAndUpdate idOf x f l)
  = if String.eqb k x then option_map f (findById idOf x l)
    else findById idOf k l.
Proof.
  intros Hf. unfold findById, findOne.
  induction l as [|d r IH]; simpl.
  - now destruct (String.eqb k x).
  - destruct (String.eqb_spec (idOf d) x) as [E|E]; simpl.
    + rewrite Hf. destruct (String.eqb_spec k x) as [K|K].
      * subst x. subst k. now rewrite String.eqb_refl.
      * destruct (String.eqb_spec (idOf d) k); [congruence | reflexivity].
    + destruct (String.eqb_spec (idOf d) k) as [F|F].
      * destruct (String.eqb_spec k x); [congruence | reflexivity].
      * rewrite IH. destruct (String.eqb_spec k x) as [K|K]; [|reflexivity].
        subst k. destruct (String.eqb_spec (idOf d) x); [congruence|].
        reflexivity.
Qed.

Lemma findById_updateMany k p f l :
  (forall d, idOf (f d) = idOf d) ->
  findById idOf k (updateMany p f l)
  = option_map (fun d => if p d then f d else d) (findById idOf k l).
Proof.
  intros Hf. unfold findById, findOne, updateMany.
  induction l as [|d r IH]; simpl; [reflexivity|].
  assert (E : idOf (if p d then f d else d) = idOf d)
    by (destruct (p d); [apply Hf | reflexivity]).
  rewrite E. now destruct (String.eqb (idOf d) k).
Qed.

Lemma ids_update x f l :
  (forall d, idOf (f d) = idOf d) ->
  map idOf (findByIdAndUpdate idOf x f l) = map idOf l.
Proof.
  intros Hf. induction l as [|d r IH]; simpl; [reflexivity|].
  destruct (String.eqb (idOf d) x); simpl; [now rewrite Hf | now rewrite IH].
Qed.

Lemma findById_app k l d :
  findById idOf k (l ++ [d])
  = match findById idOf k l with
    | Some e => Some e
    | None => if String.eqb (idOf d) k then Some d else None
    end.
Proof.
  unfold findById, findOne.
  induction l as [|e r IH]; simpl; [reflexivity|].
  now destruct (String.eqb (idOf e) k).
Qed.

Lemma insertOne_fresh d l :
  ~ In (idOf d) (map idOf l) ->
  insertOne idOf (fun _ _ => false) d l = Some (l ++ [d]).
Proof.
  intros H. unfold insertOne.
  replace (existsb _ l) with false; [reflexivity|].
  symmetry. apply not_true_is_false. intros E.
  apply existsb_exists in E. destruct E as [e [He E]].
  rewrite orb_false_r in E. apply String.eqb_eq in E.
  apply H. rewrite <- E. now apply in_map.
Qed.
End CollectionFacts.

(** ** Soft delete on the sample thread *)

(** C1, as stated, fails on the thread A -> B -> C -> D: alice's DELETE of A
    succeeds, and afterwards C, a reply to a reply of A, is still active with
    its own content, so the subtree under A is not tombstoned as a whole. *)
Lemma cascade_stops_at_direct_replies :
  fst (comment_DELETE Sample.as_alice Sample.idA (Sample.at_time 200)
                      Sample.db) = Json 200 tt
  /\ is_descendant (comments Sample.db) Sample.idA
       (Sample.reply_of Sample.idC "Agreed" (Some Sample.idB) 1 2) = true
  /\ ~ cascade_complete Sample.db Sample.after_delete_A Sample.idA.
Proof.
  split; [reflexivity|]. split; [reflexivity|].
  intros H.
  destruct (H (Sample.reply_of Sample.idC "Agreed" (Some Sample.idB) 1 2))
    as [c [Hf [Ha _]]].
  - simpl. auto.
  - reflexivity.
  - vm_compute in Hf. injection Hf as <-. discriminate Ha.
Qed.

(** C7, as stated, fails when alice deletes B a second time: the second
    DELETE succeeds again, stamps B with the new time and decrements the
    reply counter of A once more, so the database is not the one the first
    DELETE left. *)
Lemma second_delete_changes_the_database :
  let db1 := Sample.after_delete_B in
  let db2 :=
    snd (comment_DELETE Sample.as_alice Sample.idB (Sample.at_time 300) db1) in
  fst (comment_DELETE Sample.as_alice Sample.idB (Sample.at_time 300) db1)
  = Json 200 tt
  /\ option_map Comment.updatedAt
       (findById Comment._id Sample.idB (comments db1)) = Some 200
  /\ option_map Comment.updatedAt
       (findById Comment._id Sample.idB (comments db2)) = Some 300
  /\ option_map (fun c => Comment.replies (Comment.stats c))
       (findById Comment._id Sample.idA (comments db1)) = Some 0
  /\ option_map (fun c => Comment.replies (Comment.stats c))
       (findById Comment._id Sample.idA (comments db2)) = Some (-1)
  /\ db2 <> db1.
Proof.
  repeat (split; [reflexivity|]).
  intros E. apply (f_equal comments) in E. vm_compute in E. discriminate E.
Qed.

(** ** Listing the top-level comments *)

(** C4 at its failing input: B, the only reply to A, has been deleted, so A
    has no active reply; the listing of project p1 still returns A with a
    reply count of 1, the soft-deleted B included. *)
Theorem listing_counts_deleted_replies :
  active_replies_count (comments Sample.after_delete_B) Sample.idA = 0
  /\ exists v total,
       fst (comments_GET Sample.as_bob Sample.p1 Sample.first_page
                         Sample.after_delete_B) = Json 200 ([v], total)
       /\ view_id v = Sample.idA
       /\ view_replies v = 1.
Proof.
  split; [reflexivity|].
  eexists. eexists. split; [reflexivity|]. split; reflexivity.
Qed.

(** ** Content validation *)

(** C6 at its failing input: one letter followed by 2000 spaces has length 1
    after trimming, and [validateCommentContent] accepts it, but both POST
    and PUT refuse it as too long because they compare the untrimmed
    length. *)
Theorem padded_content_is_refused :
  js_length (trim Sample.padded) = 1
  /\ Comment.validateCommentContent Sample.padded = true
  /\ fst (comments_POST Sample.as_bob Sample.p1
            (mkCommentBody (Text Sample.padded) None) Sample.idE
            (Sample.at_time 300) Sample.db)
     = Error 400 "Comment content is too long (max 2000 characters)"
  /\ fst (comment_PUT Sample.as_alice Sample.idA (Text Sample.padded)
            (Sample.at_time 300) Sample.db)
     = Error 400 "Comment content is too long (max 2000 characters)".
Proof.
  repeat split; vm_compute; reflexivity.
Qed.

(** ** Replying under a deleted comment *)

(** C8 at its failing input: D has been deleted and every active comment
    still has an active parent; bob's reply under D is created, active, and
    stays so, although [canReplyToComment] is false for D. *)
Theorem reply_under_deleted_comment_is_active :
  let db1 := Sample.after_delete_D in
  let post :=
    comments_POST Sample.as_bob Sample.p1
      (mkCommentBody (Text (js "still here")) (Some Sample.idD)) Sample.idE
      (Sample.at_time 300) db1 in
  no_active_reply_to_inactive (comments db1)
  /\ option_map Comment.canReplyToComment
       (findById Comment._id Sample.idD (comments db1)) = Some false
  /\ (exists c, fst post = Json 201 (Some c)
                /\ Comment.isActive c = true
                /\ Comment.parentCommentId c = Some Sample.idD)
  /\ option_map Comment.isActive
       (findById Comment._id Sample.idD (comments (snd post))) = Some false
  /\ ~ no_active_reply_to_inactive (comments (snd post)).
Proof.
  split.
  { intros c p pc Hin Hact Hp Hf. vm_compute in Hin.
    repeat (destruct Hin as [<- | Hin];
            [ vm_compute in Hp; try discriminate Hp; injection Hp as <-;
              vm_compute in Hf; injection Hf as <-;
              try reflexivity; discriminate Hact | ]).
    contradiction. }
  split; [reflexivity|].
  split; [eexists; split; [reflexivity|]; split; reflexivity|].
  split; [reflexivity|].
  intros H.
  specialize (H (Comment.mk Sample.idE (js "still here")
                   (User._id Sample.bob) Sample.p1 (Some Sample.idD)
                   (Comment.mkStats 0 0 0)
                   (Comment.mkMetadata false false false 4) true 300 300)
                Sample.idD).
  vm_compute in H.
  specialize (H _ (or_intror (or_intror (or_intror (or_intror
                     (or_introl eq_refl))))) eq_refl eq_refl eq_refl).
  discriminate H.
Qed.

(** ** Following oneself *)

(** C9 at its failing input: alice posts to the follow route of her own id
    written in upper-case hexadecimal digits.  The id is valid and finds
    alice, the comparison of the two strings does not see that they name the
    same user, and a Follow of alice by alice is stored, against
    [canUserFollow]. *)
Theorem self_follow_by_upper_case_id :
  let r := follow_POST Sample.as_alice "AAAAAAAAAAAAAAAAAAAAAAAA" Sample.idL
                       Sample.db in
  findById User._id (toObjectId "AAAAAAAAAAAAAAAAAAAAAAAA") (users Sample.db)
  = Some Sample.alice
  /\ Follow.canUserFollow (User._id Sample.alice)
       (toObjectId "AAAAAAAAAAAAAAAAAAAAAAAA") = false
  /\ fst r = Json 200 (mkFollowResult true 1)
  /\ follows (snd r)
     = [Follow.mk Sample.idL (User._id Sample.alice) (User._id Sample.alice)].
Proof.
  repeat split; reflexivity.
Qed.

(** ** Likes on a project *)

(** C2, as stated, fails for a project: from a clean state one toggle by bob
    stores a Like on p1, and the stored counter of p1 is still 0. *)
Lemma project_counter_is_not_maintained :
  let db1 := project_like_n Sample.as_bob Sample.p1 [Sample.idL] Sample.db in
  clean Sample.db Sample.p1 project
  /\ is_liked db1 (User._id Sample.bob) Sample.p1 project = true
  /\ count_likes db1 Sample.p1 project = 1
  /\ stored_likes db1 Sample.p1 project = Some 0
  /\ ~ counter_agrees db1 Sample.p1 project.
Proof.
  split; [split; reflexivity|].
  repeat (split; [reflexivity|]).
  intros H. vm_compute in H. discriminate H.
Qed.

(** ** Reply chains on the sample thread *)

(** C5, as stated, fails on a chain of MAX_DEPTH + 1 replies under the root
    A: the MAX_DEPTH-th reply is created, at depth 5, so the chain does not
    fail at its MAX_DEPTH-th reply. *)
Lemma fifth_reply_is_created :
  let rs := reply_chain Sample.as_bob Sample.p1 (Text (js "x")) Sample.idA
                        Sample.new_ids (Sample.at_time 300) Sample.db in
  created_at_depth rs (Z.to_nat Comment.MAX_THREAD_DEPTH) 5
  /\ ~ fails_exactly_at rs (Z.to_nat Comment.MAX_THREAD_DEPTH).
Proof.
  split.
  - eexists. split; reflexivity.
  - intros [H _]. vm_compute in H. discriminate H.
Qed.

(** ** Running a handler *)

Ltac destruct_innermost x :=
  lazymatch x with
  | context [match ?y with _ => _ end] => destruct_innermost y
  | _ => let E := fresh "E" in destruct x eqn:E
  end.

(** Unfold the plumbing of a handler in [H], or in the goal. *)
Ltac unfold_handler_in H :=
  cbv beta iota delta
    [bind signed_in current_user require reject_if ret fail get respond
     modify update_comments update_users update_likes update_follows
     internal_error] in H.

Ltac unfold_handler :=
  cbv beta iota delta
    [bind signed_in current_user require reject_if ret fail get respond
     modify update_comments update_users update_likes update_follows
     internal_error].

(** One case distinction on the next test a handler makes. *)
Ltac step H :=
  match type of H with
  | context [match ?x with _ => _ end] =>
      destruct_innermost x; cbv beta iota in H; try discriminate H
  end.

(** ** Soft delete *)

Lemma comment_DELETE_inv session commentId now db st db' :
  comment_DELETE session commentId now db = (Json st tt, db') ->
  exists email user c,
    session_email session = Some email
    /\ isValid commentId = true
    /\ findUserByEmail email db = Some user
    /\ findById Comment._id (toObjectId commentId) (comments db) = Some c
    /\ negb (String.eqb (Comment.authorId c) (User._id user))
       && negb (String.eqb (User.role user) "admin") = false
    /\ db' = with_comments db
         (updateMany (is_reply_to (toObjectId commentId))
            (stamp_delete (now 2%nat))
            (match Comment.parentCommentId c with
             | Some parent =>
                 findByIdAndUpdate Comment._id parent
                   (stamp_replies (-1) (now 1%nat))
             | None => fun cs => cs
             end
               (findByIdAndUpdate Comment._id (toObjectId commentId)
                  (stamp_delete (now 0%nat)) (comments db)))).
Proof.
  intros H. unfold comment_DELETE in H. unfold_handler_in H.
  repeat step H.
  all: injection H as _ <-.
  all: apply negb_false_iff in E0.
  all: do 3 eexists; repeat (split; [eassumption || reflexivity|]).
  all: rewrite ?E4; reflexivity.
Qed.

Lemma comment_DELETE_run session commentId now db email user c :
  session_email session = Some email ->
  isValid commentId = true ->
  findUserByEmail email db = Some user ->
  findById Comment._id (toObjectId commentId) (comments db) = Some c ->
  negb (String.eqb (Comment.authorId c) (User._id user))
  && negb (String.eqb (User.role user) "admin") = false ->
  fst (comment_DELETE session commentId now db) = Json 200 tt.
Proof.
  intros H1 H2 H3 H4 H5. unfold comment_DELETE. unfold_handler.
  rewrite H1, H2. cbn [negb]. rewrite H3, H4, H5.
  now destruct (Comment.parentCommentId c).
Qed.

(** What the three writes of DELETE do to the document with a given id. *)
Lemma delete_effect target parent now cs id d :
  findById Comment._id id cs = Some d ->
  exists d',
    findById Comment._id id
      (updateMany (is_reply_to target) (stamp_delete (now 2%nat))
         (match parent with
          | Some p =>
              findByIdAndUpdate Comment._id p (stamp_replies (-1) (now 1%nat))
          | None => fun cs => cs
          end
            (findByIdAndUpdate Comment._id target (stamp_delete (now 0%nat))
                               cs)))
    = Some d'
    /\ Comment.authorId d' = Comment.authorId d
    /\ Comment.parentCommentId d' = Comment.parentCommentId d
    /\ Comment.metadata d' = Comment.metadata d
    /\ (if String.eqb id target || is_reply_to target d
        then Comment.isActive d' = false
             /\ Comment.content d' = Comment.tombstone
        else Comment.isActive d' = Comment.isActive d
             /\ Comment.content d' = Comment.content d)
    /\ (id = target ->
        In (Comment.updatedAt d') [now 0%nat; now 1%nat; now 2%nat]).
Proof.
  intros Hd.
  rewrite findById_updateMany by reflexivity.
  destruct parent as [p|].
  - rewrite !findById_update by reflexivity.
    destruct (String.eqb_spec id p) as [P|P]; [subst p|];
      (destruct (String.eqb_spec id target) as [T|T]; [subst target|]);
      rewrite ?Hd; cbn [option_map];
      eexists; (split; [reflexivity|]);
      destruct d as [i c a pj [q|] s m act cr up];
      unfold is_reply_to, stamp_delete, stamp_replies; cbn;
      try destruct (String.eqb q id); try destruct (String.eqb q target);
      cbn; intuition congruence.
  - rewrite findById_update by reflexivity.
    destruct (String.eqb_spec id target) as [T|T]; [subst target|];
      rewrite ?Hd; cbn [option_map];
      eexists; (split; [reflexivity|]);
      destruct d as [i c a pj [q|] s m act cr up];
      unfold is_reply_to, stamp_delete, stamp_replies; cbn;
      try destruct (String.eqb q id); try destruct (String.eqb q target);
      cbn; intuition congruence.
Qed.

Lemma delete_effect_none target parent now cs id :
  findById Comment._id id cs = None ->
  findById Comment._id id
    (updateMany (is_reply_to target) (stamp_delete (now 2%nat))
       (match parent with
        | Some p =>
            findByIdAndUpdate Comment._id p (stamp_replies (-1) (now 1%nat))
        | None => fun cs => cs
        end
          (findByIdAndUpdate Comment._id target (stamp_delete (now 0%nat))
                             cs)))
  = None.
Proof.
  intros Hd.
  rewrite findById_updateMany by reflexivity.
  destruct parent as [p|].
  - rewrite !findById_update by reflexivity.
    destruct (String.eqb_spec id p) as [P|P]; [subst p|];
      (destruct (String.eqb_spec id target) as [T|T]; [subst target|]);
      now rewrite ?Hd.
  - rewrite findById_update by reflexivity.
    destruct (String.eqb_spec id target) as [T|T]; [subst target|];
      now rewrite ?Hd.
Qed.

(** C1 (amended): a successful DELETE leaves the comment itself and each of
    its direct replies (the comments whose parentCommentId is the comment)
    inactive with the tombstone marker as content; every other comment,
    deeper descendants included, keeps its isActive and its content. *)
Theorem soft_delete_marks_comment_and_direct_replies
    session commentId now db st db' :
  comment_DELETE session commentId now db = (Json st tt, db') ->
  tombstoned (comments db') (toObjectId commentId)
  /\ forall id c,
      findById Comment._id id (comments db) = Some c ->
      exists c',
        findById Comment._id id (comments db') = Some c'
        /\ if String.eqb id (toObjectId commentId)
              || is_reply_to (toObjectId commentId) c
           then Comment.isActive c' = false
                /\ Comment.content c' = Comment.tombstone
           else Comment.isActive c' = Comment.isActive c
                /\ Comment.content c' = Comment.content c.
Proof.
  intros H.
  apply comment_DELETE_inv in H.
  destruct H as (email & user & c & _ & _ & _ & Hc & _ & ->).
  cbn [comments with_comments]. split.
  - destruct (delete_effect (toObjectId commentId)
                (Comment.parentCommentId c) now _ _ _ Hc)
      as (d' & Hd' & _ & _ & _ & Hk & _).
    rewrite String.eqb_refl in Hk. cbn [orb] in Hk.
    exists d'. tauto.
  - intros id d Hd.
    destruct (delete_effect (toObjectId commentId)
                (Comment.parentCommentId c) now _ _ _ Hd)
      as (d' & Hd' & _ & _ & _ & Hk & _).
    exists d'. tauto.
Qed.

Lemma soft_delete_marks_comment_and_direct_replies_witness :
  tombstoned (comments Sample.after_delete_A) (toObjectId Sample.idA)
  /\ forall id c,
      findById Comment._id id (comments Sample.db) = Some c ->
      exists c',
        findById Comment._id id (comments Sample.after_delete_A) = Some c'
        /\ if String.eqb id (toObjectId Sample.idA)
              || is_reply_to (toObjectId Sample.idA) c
           then Comment.isActive c' = false
                /\ Comment.content c' = Comment.tombstone
           else Comment.isActive c' = Comment.isActive c
                /\ Comment.content c' = Comment.content c.
Proof.
  apply (soft_delete_marks_comment_and_direct_replies
           Sample.as_alice Sample.idA (Sample.at_time 200) Sample.db 200).
  reflexivity.
Defined.

(** C7 (amended): DELETE of an already tombstoned comment is not skipped.
    After a successful DELETE, the same request succeeds again; every comment
    has the same isActive and the same content after the second call as
    after the first, and the comment itself is stamped again, with a time of
    the second call. *)
Theorem repeated_soft_delete_rewrites_the_tombstone
    session commentId now now' db st db1 :
  comment_DELETE session commentId now db = (Json st tt, db1) ->
  let r := comment_DELETE session commentId now' db1 in
  fst r = Json 200 tt
  /\ (forall id c1,
        findById Comment._id id (comments db1) = Some c1 ->
        exists c2,
          findById Comment._id id (comments (snd r)) = Some c2
          /\ Comment.isActive c2 = Comment.isActive c1
          /\ Comment.content c2 = Comment.content c1)
  /\ exists c2,
       findById Comment._id (toObjectId commentId) (comments (snd r))
       = Some c2
       /\ In (Comment.updatedAt c2) [now' 0%nat; now' 1%nat; now' 2%nat].
Proof.
  intros H r.
  apply comment_DELETE_inv in H.
  destruct H as (email & user & c & He & Hv & Hu & Hc & Hp & Hdb1).
  destruct (delete_effect (toObjectId commentId)
              (Comment.parentCommentId c) now _ _ _ Hc)
    as (c1 & Hc1 & Ha1 & _ & _ & _ & _).
  assert (Hc1' : findById Comment._id (toObjectId commentId) (comments db1)
                 = Some c1) by (rewrite Hdb1; exact Hc1).
  assert (Hu1 : findUserByEmail email db1 = Some user)
    by (rewrite Hdb1; exact Hu).
  assert (Hr : fst r = Json 200 tt).
  { apply (comment_DELETE_run _ _ _ _ email user c1); try assumption.
    now rewrite Ha1. }
  split; [exact Hr|].
  assert (Hr' : comment_DELETE session commentId now' db1
                = (Json 200 tt, snd r))
    by (fold r; rewrite <- Hr; now destruct r).
  apply comment_DELETE_inv in Hr'.
  destruct Hr' as (email' & user' & c1' & _ & _ & _ & Hc1'' & _ & Hdb2).
  rewrite Hdb2. cbn [comments with_comments]. split.
  - intros id d1 Hd1.
    destruct (delete_effect (toObjectId commentId)
                (Comment.parentCommentId c1') now' _ _ _ Hd1)
      as (d2 & Hd2 & _ & _ & _ & Hk2 & _).
    exists d2. split; [exact Hd2|].
    destruct (findById Comment._id id (comments db)) as [d0|] eqn:Hd0.
    + destruct (delete_effect (toObjectId commentId)
                  (Comment.parentCommentId c) now _ _ _ Hd0)
        as (d1' & Hd1' & _ & Hpar & _ & Hk1 & _).
      assert (d1' = d1)
        by (rewrite Hdb1 in Hd1; cbn [comments with_comments] in Hd1;
            congruence).
      subst d1'.
      assert (Hsame : is_reply_to (toObjectId commentId) d1
                      = is_reply_to (toObjectId commentId) d0)
        by (unfold is_reply_to; now rewrite Hpar).
      rewrite Hsame in Hk2.
      destruct (String.eqb id (toObjectId commentId)
                || is_reply_to (toObjectId commentId) d0);
        intuition congruence.
    + rewrite Hdb1 in Hd1. cbn [comments with_comments] in Hd1.
      rewrite delete_effect_none in Hd1 by exact Hd0. discriminate Hd1.
  - destruct (delete_effect (toObjectId commentId)
                (Comment.parentCommentId c1') now' _ _ _ Hc1'')
      as (c2 & Hc2 & _ & _ & _ & _ & Hup).
    exists c2. split; [exact Hc2 | now apply Hup].
Qed.

Lemma repeated_soft_delete_rewrites_the_tombstone_witness :
  let r := comment_DELETE Sample.as_alice Sample.idB (Sample.at_time 300)
                          Sample.after_delete_B in
  fst r = Json 200 tt
  /\ (forall id c1,
        findById Comment._id id (comments Sample.after_delete_B) = Some c1 ->
        exists c2,
          findById Comment._id id (comments (snd r)) = Some c2
          /\ Comment.isActive c2 = Comment.isActive c1
          /\ Comment.content c2 = Comment.content c1)
  /\ exists c2,
       findById Comment._id (toObjectId Sample.idB) (comments (snd r))
       = Some c2
       /\ In (Comment.updatedAt c2)
             [Sample.at_time 300 0%nat; Sample.at_time 300 1%nat;
              Sample.at_time 300 2%nat].
Proof.
  apply (repeated_soft_delete_rewrites_the_tombstone
           Sample.as_alice Sample.idB (Sample.at_time 200)
           (Sample.at_time 300) Sample.db 200 Sample.after_delete_B).
  reflexivity.
Defined.

(** ** Content validation, in general *)

Lemma trim_start_length s : (List.length (trim_start s) <= List.length s)%nat.
Proof.
  induction s as [|c r IH]; simpl; [lia|].
  destruct (is_js_space c); simpl; lia.
Qed.

Lemma trim_length s : js_length (trim s) <= js_length s.
Proof.
  unfold js_length, trim, trim_end.
  rewrite length_rev.
  pose proof (trim_start_length (rev (trim_start s))) as H1.
  rewrite length_rev in H1.
  pose proof (trim_start_length s). lia.
Qed.

(** X1: the checks of POST and PUT accept a string exactly when it is not
    blank and its untrimmed length is at most 2000. *)
Lemma validate_content_accepts s db :
  fst (validate_content (Text s) db) = Json 200 s
  <-> 1 <= js_length (trim s) /\ js_length s <= 2000.
Proof.
  unfold validate_content. unfold_handler.
  pose proof (trim_length s) as Ht.
  assert (Hn : 0 <= js_length (trim s)) by (unfold js_length; lia).
  destruct (Z.eqb_spec (js_length s) 0) as [E|E]; cbn [orb].
  - cbn. split; [discriminate | lia].
  - destruct (Z.eqb_spec (js_length (trim s)) 0) as [F|F]; cbn.
    + split; [discriminate | lia].
    + destruct (Z.gtb_spec (js_length s) 2000) as [G|G]; cbn.
      * split; [discriminate | lia].
      * split; [lia | reflexivity].
Qed.

Lemma validate_content_ok s db :
  1 <= js_length (trim s) -> js_length s <= 2000 ->
  validate_content (Text s) db = (Json 200 s, db).
Proof.
  intros H1 H2. unfold validate_content. unfold_handler.
  pose proof (trim_length s) as Ht.
  destruct (Z.eqb_spec (js_length s) 0) as [E|E]; [lia|].
  destruct (Z.eqb_spec (js_length (trim s)) 0) as [F|F]; [lia|].
  cbn. destruct (Z.gtb_spec (js_length s) 2000) as [G|G]; [lia|].
  reflexivity.
Qed.

(** ** Editing a deleted comment *)

(** C10: the author's PUT on a comment that is already soft-deleted
    (inactive, with the tombstone marker) succeeds whenever the new content is
    valid; the stored comment then has the new, trimmed content in place of
    the marker and isEdited = true, and is still inactive. *)
Theorem edit_of_deleted_comment
    session commentId text now db email user c :
  session_email session = Some email ->
  isValid commentId = true ->
  findUserByEmail email db = Some user ->
  findById Comment._id (toObjectId commentId) (comments db) = Some c ->
  Comment.authorId c = User._id user ->
  Comment.isActive c = false ->
  Comment.content c = Comment.tombstone ->
  1 <= js_length (trim text) ->
  js_length text <= 2000 ->
  exists c' db',
    comment_PUT session commentId (Text text) now db
    = (Json 200 (Some c'), db')
    /\ findById Comment._id (toObjectId commentId) (comments db') = Some c'
    /\ Comment.content c' = trim text
    /\ Comment.isEdited (Comment.metadata c') = true
    /\ Comment.isActive c' = false.
Proof.
  intros He Hv Hu Hc Ha Hact _ H1 H2.
  exists (stamp_edit (trim text) (now 0%nat) c).
  eexists.
  unfold comment_PUT. unfold_handler.
  rewrite He, Hv. cbn [negb]. rewrite Hu, Hc, Ha, String.eqb_refl.
  cbn [negb]. rewrite validate_content_ok by assumption.
  cbn [comments with_comments].
  rewrite findById_update by reflexivity.
  rewrite String.eqb_refl, Hc. cbn [option_map].
  assert (Hid : Comment._id (stamp_edit (trim text) (now 0%nat) c)
                = toObjectId commentId)
    by (cbn; now apply findById_id in Hc).
  rewrite Hid.
  rewrite findById_update by reflexivity.
  rewrite String.eqb_refl, Hc. cbn [option_map].
  split; [reflexivity|].
  cbn [comments with_comments].
  rewrite findById_update by reflexivity.
  rewrite String.eqb_refl, Hc. cbn.
  repeat split; assumption.
Qed.

Lemma edit_of_deleted_comment_witness :
  exists c' db',
    comment_PUT Sample.as_alice Sample.idA (Text (js " edited "))
                (Sample.at_time 300) Sample.after_delete_A
    = (Json 200 (Some c'), db')
    /\ findById Comment._id (toObjectId Sample.idA) (comments db') = Some c'
    /\ Comment.content c' = trim (js " edited ")
    /\ Comment.isEdited (Comment.metadata c') = true
    /\ Comment.isActive c' = false.
Proof.
  apply (edit_of_deleted_comment
           Sample.as_alice Sample.idA (js " edited ") (Sample.at_time 300)
           Sample.after_delete_A "alice@example.com" Sample.alice
           (stamp_delete 200
              (Sample.reply_of Sample.idA "Nice work" None 1 0)));
    try reflexivity; vm_compute; discriminate.
Defined.

(** ** Follow counters *)

Lemma follow_counts_effect actor target k us id :
  let us' :=
    findByIdAndUpdate User._id target (User.inc_followers k)
      (findByIdAndUpdate User._id actor (User.inc_following k) us) in
  option_map (fun u => User.following (User.stats u))
             (findById User._id id us')
  = plus_if (String.eqb id actor) k
      (option_map (fun u => User.following (User.stats u))
                  (findById User._id id us))
  /\ option_map (fun u => User.followers (User.stats u))
                (findById User._id id us')
     = plus_if (String.eqb id target) k
         (option_map (fun u => User.followers (User.stats u))
                     (findById User._id id us)).
Proof.
  cbv zeta. rewrite !findById_update by reflexivity.
  destruct (String.eqb_spec id target) as [T|T]; [subst target|];
    (destruct (String.eqb_spec id actor) as [A|A]; [subst actor|]);
    rewrite ?String.eqb_refl;
    destruct (findById User._id id us) as [u|]; cbn; auto.
Qed.

(** C3: a toggle-follow that succeeds moves the two counters together.  With
    k = +1 when the response says isFollowing and k = -1 otherwise, the
    actor's stats.following and the target's stats.followers both exist and
    both change by k, and no other counter of any user changes. *)
Theorem toggle_follow_moves_both_counters
    session userId newId db st r db' :
  follow_POST session userId newId db = (Json st r, db') ->
  let k := if isFollowing r then 1 else -1 in
  exists actor a t,
    option_map User._id
      (match session_email session with
       | Some email => findUserByEmail email db
       | None => None
       end) = Some actor
    /\ stored_following db actor = Some a
    /\ stored_followers db (toObjectId userId) = Some t
    /\ stored_following db' actor = Some (a + k)
    /\ stored_followers db' (toObjectId userId) = Some (t + k)
    /\ forall id,
         stored_following db' id
         = plus_if (String.eqb id actor) k (stored_following db id)
         /\ stored_followers db' id
            = plus_if (String.eqb id (toObjectId userId)) k
                      (stored_followers db id).
Proof.
  intros H k.
  unfold follow_POST, update_follow_counts, save_follow in H.
  unfold_handler_in H.
  repeat step H.
  all: injection H as _ <- <-; subst k; cbn [isFollowing option_map].
  all: unfold stored_following, stored_followers.
  all: cbn [users with_users with_follows].
  all: match goal with
       | Hu : findUserByEmail _ _ = Some ?u,
         Ht : findById User._id (toObjectId _) (users ?d) = Some ?t
         |- _ =>
           pose proof (find_some _ _ Hu) as [Hin _];
           destruct (findById User._id (User._id u) (users d))
             as [au|] eqn:Hau;
           [ exists (User._id u), (User.following (User.stats au)),
                    (User.followers (User.stats t));
             rewrite Hau, Ht
           | exfalso; apply findById_None in Hau; apply Hau;
             now apply in_map ]
       end.
  all: split; [reflexivity|].
  all: split; [reflexivity|].
  all: split; [reflexivity|].
  all: match goal with
       | |- context [findByIdAndUpdate User._id ?t (User.inc_followers ?k)
                       (findByIdAndUpdate User._id ?a _ ?us)] =>
           pose proof (follow_counts_effect a t k us) as Heff
       end.
  all: cbv zeta in Heff.
  all: split; [ | split ].
  all: try (intros id; apply Heff).
  all: match goal with
       | |- _ = Some (User.following _ + _) =>
           rewrite (proj1 (Heff _)), String.eqb_refl, Hau; reflexivity
       | |- _ = Some (User.followers _ + _) =>
           rewrite (proj2 (Heff _)), String.eqb_refl;
           match goal with
           | Ht : findById User._id (toObjectId _) _ = Some _ |- _ =>
               rewrite Ht
           end; reflexivity
       end.
Qed.

Lemma toggle_follow_moves_both_counters_witness :
  let db' :=
    snd (follow_POST Sample.as_bob (User._id Sample.alice) Sample.idL
                     Sample.db) in
  exists actor a t,
    option_map User._id (findUserByEmail "bob@example.com" Sample.db)
    = Some actor
    /\ stored_following Sample.db actor = Some a
    /\ stored_followers Sample.db (toObjectId (User._id Sample.alice))
       = Some t
    /\ stored_following db' actor = Some (a + 1)
    /\ stored_followers db' (toObjectId (User._id Sample.alice))
       = Some (t + 1)
    /\ forall id,
         stored_following db' id
         = plus_if (String.eqb id actor) 1 (stored_following Sample.db id)
         /\ stored_followers db' id
            = plus_if (String.eqb id (toObjectId (User._id Sample.alice))) 1
                      (stored_followers Sample.db id).
Proof.
  apply (toggle_follow_moves_both_counters
           Sample.as_bob (User._id Sample.alice) Sample.idL Sample.db
           200 (mkFollowResult true 1)).
  reflexivity.
Defined.

(** ** Replies and their depth *)

Lemma isValid_not_empty s : isValid s = true -> String.eqb s "" = false.
Proof. destruct s; [discriminate | reflexivity]. Qed.

Section Reply.
Variables (session : Session) (projectId : string) (text : JSString)
          (now : Clock) (email : string) (user : User.t).
Hypothesis Hsession : session_email session = Some email.
Hypothesis Hproject : isValid projectId = true.
Hypothesis Htext : 1 <= js_length (trim text) /\ js_length text <= 2000.

Local Abbreviation serves := (serves email user projectId).

Lemma reply_created db parent pc newId :
  serves db ->
  isValid parent = true ->
  findById Comment._id (toObjectId parent) (comments db) = Some pc ->
  Comment.projectId pc = projectId ->
  Comment.depth (Comment.metadata pc) + 1 <= 5 ->
  ~ In newId (map Comment._id (comments db)) ->
  exists c db',
    comments_POST session projectId
                  (mkCommentBody (Text text) (Some parent)) newId now db
    = (Json 201 (Some c), db')
    /\ Comment.depth (Comment.metadata c)
       = Comment.depth (Comment.metadata pc) + 1
    /\ Comment.projectId c = toObjectId projectId
    /\ Comment.parentCommentId c = Some (toObjectId parent)
    /\ findById Comment._id newId (comments db') = Some c
    /\ serves db'
    /\ map Comment._id (comments db')
       = map Comment._id (comments db) ++ [newId].
Proof.
  intros [Hu Hp] Hv Hpc Hpj Hd Hnew.
  destruct (findById Project._id (toObjectId projectId) (projects db))
    as [pr|] eqn:Hpr; [clear Hp | congruence].
  destruct Htext as [H1 H2].
  pose proof (trim_length text) as Hlen.
  set (c := Comment.mk newId (trim text) (User._id user)
              (toObjectId projectId) (Some (toObjectId parent))
              (Comment.mkStats 0 0 0)
              (Comment.mkMetadata false false false
                 (Comment.depth (Comment.metadata pc) + 1))
              true (now 0%nat) (now 0%nat)).
  assert (Hne : newId <> toObjectId parent).
  { intros ->. apply Hnew. apply findById_In in Hpc as Hin.
    apply findById_id in Hpc. rewrite <- Hpc. now apply in_map. }
  assert (Hfind : findById Comment._id newId
                    (findByIdAndUpdate Comment._id (toObjectId parent)
                       (stamp_replies 1 (now 1%nat)) (comments db ++ [c]))
                  = Some c).
  { rewrite findById_update by reflexivity.
    destruct (String.eqb_spec newId (toObjectId parent)); [congruence|].
    rewrite findById_app.
    apply findById_None in Hnew. rewrite Hnew.
    cbn. now rewrite String.eqb_refl. }
  exists c. eexists.
  unfold comments_POST, save_comment. unfold_handler.
  rewrite Hsession, Hproject. cbn [negb]. rewrite Hu, Hpr.
  cbn [body_content body_parentCommentId given].
  rewrite validate_content_ok by assumption.
  rewrite (isValid_not_empty _ Hv), Hv. cbn [negb].
  rewrite Hpc, Hpj, String.eqb_refl. cbn [negb].
  destruct (Z.gtb_spec (Comment.depth (Comment.metadata pc) + 1) 5);
    [lia|].
  cbn [option_map]. fold c.
  replace (Comment.schema_valid c) with true.
  2:{ symmetry. unfold Comment.schema_valid. cbn.
      unfold Comment.MIN_COMMENT_LENGTH, Comment.MAX_COMMENT_LENGTH,
        Comment.MAX_THREAD_DEPTH.
      rewrite !andb_true_iff, !Z.leb_le. lia. }
  rewrite (insertOne_fresh Comment._id c) by exact Hnew.
  cbn [comments with_comments].
  rewrite Hfind.
  split; [reflexivity|].
  cbn [comments with_comments users projects].
  repeat (split; [reflexivity || assumption|]).
  split.
  - split; [exact Hu | cbn [projects with_comments]; now rewrite Hpr].
  - rewrite ids_update by reflexivity. now rewrite map_app.
Qed.

Lemma reply_refused db parent pc newId :
  serves db ->
  isValid parent = true ->
  findById Comment._id (toObjectId parent) (comments db) = Some pc ->
  Comment.projectId pc = projectId ->
  5 < Comment.depth (Comment.metadata pc) + 1 ->
  comments_POST session projectId
                (mkCommentBody (Text text) (Some parent)) newId now db
  = (DepthExceeded, db).
Proof.
  intros [Hu Hp] Hv Hpc Hpj Hd.
  destruct (findById Project._id (toObjectId projectId) (projects db))
    as [pr|] eqn:Hpr; [clear Hp | congruence].
  destruct Htext as [H1 H2].
  unfold comments_POST. unfold_handler.
  rewrite Hsession, Hproject. cbn [negb]. rewrite Hu, Hpr.
  cbn [body_content body_parentCommentId given].
  rewrite validate_content_ok by assumption.
  rewrite (isValid_not_empty _ Hv), Hv. cbn [negb].
  rewrite Hpc, Hpj, String.eqb_refl. cbn [negb].
  destruct (Z.gtb_spec (Comment.depth (Comment.metadata pc) + 1) 5);
    [reflexivity | lia].
Qed.

(** The project test comes before the depth test and compares strings: a
    reply under a parent whose project id string is not the route parameter
    itself is refused, whatever the depth. *)
Lemma reply_under_another_project_id_is_refused db parent pc newId :
  serves db ->
  isValid parent = true ->
  findById Comment._id (toObjectId parent) (comments db) = Some pc ->
  Comment.projectId pc <> projectId ->
  comments_POST session projectId
                (mkCommentBody (Text text) (Some parent)) newId now db
  = (Error 400 "Parent comment does not belong to this project", db).
Proof.
  intros [Hu Hp] Hv Hpc Hpj.
  destruct (findById Project._id (toObjectId projectId) (projects db))
    as [pr|] eqn:Hpr; [clear Hp | congruence].
  destruct Htext as [H1 H2].
  unfold comments_POST. unfold_handler.
  rewrite Hsession, Hproject. cbn [negb]. rewrite Hu, Hpr.
  cbn [body_content body_parentCommentId given].
  rewrite validate_content_ok by assumption.
  rewrite (isValid_not_empty _ Hv), Hv. cbn [negb].
  rewrite Hpc. apply String.eqb_neq in Hpj. now rewrite Hpj.
Qed.
End Reply.

Lemma canonical_spec s :
  canonical s = true -> isValid s = true /\ toObjectId s = s.
Proof.
  unfold canonical. rewrite andb_true_iff, String.eqb_eq. tauto.
Qed.

(** A chain under a parent at depth [d]: the [k]-th reply is created at depth
    [d + k] as long as that is at most 5, and the reply that would be at depth
    6 is refused. *)
Lemma reply_chain_from session projectId text now email user :
  session_email session = Some email ->
  canonical projectId = true ->
  1 <= js_length (trim text) /\ js_length text <= 2000 ->
  forall ids parent pc db,
    serves email user projectId db ->
    isValid parent = true ->
    findById Comment._id (toObjectId parent) (comments db) = Some pc ->
    Comment.projectId pc = projectId ->
    fresh ids (map Comment._id (comments db)) ->
    Forall (fun id => canonical id = true) ids ->
    let d := Comment.depth (Comment.metadata pc) in
    let rs := reply_chain session projectId (Text text) parent ids now db in
    forall k, (1 <= k <= List.length ids)%nat ->
      (d + Z.of_nat k <= 5 -> created_at_depth rs k (d + Z.of_nat k))
      /\ (d + Z.of_nat k = 6 -> nth_error rs (k - 1) = Some DepthExceeded).
Proof.
  intros Hs Hpj Ht.
  apply canonical_spec in Hpj as [Hpv Hpc].
  induction ids as [|id rest IH]; intros parent pc db Hserves Hparv Hfind Hproj
    [Hnd Hfresh] Hcan d rs k Hk; [cbn in Hk; lia|].
  apply Forall_cons_iff in Hcan as [Hid Hrest].
  apply canonical_spec in Hid as [Hidv Hidc].
  subst rs. cbn [reply_chain].
  destruct (Z_le_gt_dec (d + 1) 5) as [Hd|Hd].
  - (* the reply is created *)
    destruct (reply_created session projectId text now email user Hs Hpv Ht
                db parent pc id Hserves Hparv)
      as (c & db' & Hpost & Hdepth & Hcp & _ & Hc & Hserves' & Hids);
      [ exact Hfind | exact Hproj | exact Hd
      | apply Hfresh; now left | ].
    rewrite Hpost.
    destruct k as [|[|k']]; [lia | |].
    + (* the first reply *)
      split; [|lia]. intros _. exists c. split; [reflexivity|].
      rewrite Hdepth. fold d. lia.
    + (* a later reply: the chain under the new comment *)
      apply NoDup_cons_iff in Hnd as [Hnotin Hnd'].
      assert (Hc' : findById Comment._id (toObjectId id) (comments db')
                    = Some c) by (now rewrite Hidc).
      specialize (IH id c db' Hserves' Hidv Hc').
      rewrite Hcp, Hpc in IH. specialize (IH eq_refl).
      assert (Hfresh' : fresh rest (map Comment._id (comments db'))).
      { split; [exact Hnd'|]. intros x Hx. rewrite Hids.
        rewrite in_app_iff. intros [Hin|[<-|[]]].
        - apply (Hfresh x); [now right | exact Hin].
        - contradiction. }
      specialize (IH Hfresh' Hrest (S k')).
      cbv zeta in IH. rewrite Hdepth in IH. fold d in IH.
      destruct IH as [IH1 IH2]; [cbn in Hk; lia|].
      replace (S (S k') - 1)%nat with (S (S k' - 1)) by lia.
      unfold created_at_depth in *.
      replace (S (S k') - 1)%nat with (S (S k' - 1)) by lia.
      cbn [nth_error].
      replace (d + Z.of_nat (S (S k'))) with (d + 1 + Z.of_nat (S k'))
        by lia.
      split; assumption.
  - (* the reply is refused, and the chain ends *)
    rewrite (reply_refused session projectId text now email user Hs Hpv Ht
               db parent pc id Hserves Hparv);
      [ | exact Hfind | exact Hproj | fold d; lia ].
    destruct k as [|[|k']]; [lia | |].
    + split; [lia|]. intros _. reflexivity.
    + split; intros; lia.
Qed.

(** C5 (amended): under a root comment (depth 0), a chain of MAX_DEPTH + 1
    replies is created reply by reply, the [k]-th at depth [k], one more than
    its parent, for every [k] up to MAX_DEPTH = 5; the chain fails exactly at
    its (MAX_DEPTH + 1)-th reply, which is refused with DepthExceeded and not
    stored at a truncated depth.  This is for the requests that get as far as
    the depth test: the user is signed in and exists, the project exists,
    the content is valid, the root is named by a valid id, every new comment
    gets a new ObjectId,
    and the route names the project by the id string of the root's project
    as [toString()] gives it (24 lower-case hexadecimal digits).  The last
    condition is the route's own: it compares
    [parentComment.projectId.toString()] with the raw route parameter, so
    under any other spelling of the project id every reply is refused with
    400 before the depth is looked at. *)
Theorem reply_chain_fails_after_max_depth
    session projectId text now email user root rootc ids db :
  session_email session = Some email ->
  canonical projectId = true ->
  1 <= js_length (trim text) /\ js_length text <= 2000 ->
  serves email user projectId db ->
  isValid root = true ->
  findById Comment._id (toObjectId root) (comments db) = Some rootc ->
  Comment.projectId rootc = projectId ->
  Comment.depth (Comment.metadata rootc) = 0 ->
  fresh ids (map Comment._id (comments db)) ->
  Forall (fun id => canonical id = true) ids ->
  List.length ids = S (Z.to_nat Comment.MAX_THREAD_DEPTH) ->
  fails_exactly_at
    (reply_chain session projectId (Text text) root ids now db)
    (S (Z.to_nat Comment.MAX_THREAD_DEPTH)).
Proof.
  intros Hs Hpj Ht Hserves Hroot Hfind Hproj Hd0 Hfresh Hcan Hlen.
  pose proof (reply_chain_from session projectId text now email user
                Hs Hpj Ht ids root rootc db Hserves Hroot Hfind Hproj
                Hfresh Hcan) as H.
  cbv zeta in H. rewrite Hd0, Hlen in H.
  change (Z.to_nat Comment.MAX_THREAD_DEPTH) with 5%nat in *.
  split.
  - apply (H 6%nat); [lia | reflexivity].
  - intros j Hj. destruct (H j) as [Hc _]; [lia|].
    replace (0 + Z.of_nat j) with (Z.of_nat j) in Hc by lia.
    apply Hc. lia.
Qed.

Lemma reply_chain_fails_after_max_depth_witness :
  fails_exactly_at
    (reply_chain Sample.as_bob Sample.p1 (Text (js "x")) Sample.idA
                 Sample.new_ids (Sample.at_time 300) Sample.db)
    (S (Z.to_nat Comment.MAX_THREAD_DEPTH)).
Proof.
  apply (reply_chain_fails_after_max_depth
           Sample.as_bob Sample.p1 (js "x") (Sample.at_time 300)
           "bob@example.com" Sample.bob Sample.idA
           (Sample.reply_of Sample.idA "Nice work" None 1 0)).
  - reflexivity.
  - reflexivity.
  - vm_compute. split; discriminate.
  - split; [reflexivity | vm_compute; discriminate].
  - reflexivity.
  - reflexivity.
  - reflexivity.
  - reflexivity.
  - split.
    + repeat constructor; cbn; intuition discriminate.
    + cbn. intros id H. intuition (subst; discriminate).
  - repeat constructor.
  - reflexivity.
Defined.

(** ** Toggling a Like *)

Section LikeRows.
Variables (user target : ObjectId) (ty : LikeableType).

Local Abbreviation mine := (is_like_of user target ty).

Lemma unlike_rows ls e :
  NoDup (map Like._id ls) ->
  findOne mine ls = Some e ->
  let ls' := deleteOne (has_id (Like._id e)) ls in
  NoDup (map Like._id ls')
  /\ (forall x, In x (map Like._id ls') -> In x (map Like._id ls))
  /\ forall q,
       countDocuments q ls = countDocuments q ls' + (if q e then 1 else 0).
Proof.
  unfold findOne, countDocuments.
  induction ls as [|d r IH]; intros Hnd Hf; [discriminate|].
  cbn in Hnd. apply NoDup_cons_iff in Hnd as [Hd Hr].
  cbn [find] in Hf. cbv zeta. cbn [deleteOne].
  destruct (mine d) eqn:Hm.
  - injection Hf as <-.
    assert (Hid : has_id (Like._id d) d = true)
      by (unfold has_id; apply String.eqb_refl).
    rewrite Hid.
    split; [exact Hr|]. split; [intros x Hx; cbn; now right|].
    intros q. cbn [filter]. destruct (q d); cbn [List.length]; lia.
  - pose proof (find_some _ _ Hf) as [Hin _].
    assert (Hne : has_id (Like._id e) d = false).
    { unfold has_id. apply String.eqb_neq. intros E. apply Hd.
      rewrite E. now apply in_map. }
    rewrite Hne.
    destruct (IH Hr Hf) as (Hnd' & Hsub & Hcount).
    split; [|split].
    + cbn. apply NoDup_cons; [|exact Hnd'].
      intros Hx. apply Hd. now apply Hsub.
    + cbn. intros x [Hx|Hx]; [now left | right; now apply Hsub].
    + intros q. specialize (Hcount q). cbn [filter].
      destruct (q d); cbn [List.length]; lia.
Qed.

Lemma like_rows ls newId :
  findOne mine ls = None ->
  ~ In newId (map Like._id ls) ->
  insertOne Like._id Like.unique_index (Like.mk newId user target ty) ls
  = Some (ls ++ [Like.mk newId user target ty]).
Proof.
  intros Hf Hnew. unfold insertOne.
  replace (existsb _ ls) with false; [reflexivity|].
  symmetry. apply not_true_is_false. intros E.
  apply existsb_exists in E. destruct E as [e [He E]].
  apply orb_true_iff in E. destruct E as [E|E].
  - apply String.eqb_eq in E. cbn in E. apply Hnew. rewrite <- E.
    now apply in_map.
  - pose proof (find_none _ _ Hf e He) as Hm.
    unfold is_like_of in Hm. unfold Like.unique_index in E.
    cbn in E. congruence.
Qed.

Lemma count_none ls :
  findOne mine ls = None -> countDocuments mine ls = 0.
Proof.
  intros Hf. unfold countDocuments.
  replace (filter mine ls) with (@nil Like.t); [reflexivity|].
  symmetry. induction ls as [|d r IH]; [reflexivity|].
  cbn in *. destruct (mine d); [discriminate | now apply IH].
Qed.

Lemma count_some ls e :
  findOne mine ls = Some e -> 0 < countDocuments mine ls /\ mine e = true.
Proof.
  intros Hf. pose proof (find_some _ _ Hf) as [Hin Hm].
  split; [|exact Hm]. unfold countDocuments.
  assert (In e (filter mine ls)) by (apply filter_In; now split).
  destruct (filter mine ls); [contradiction | cbn; lia].
Qed.

Lemma is_liked_count db :
  is_liked db user target ty
  = negb (countDocuments mine (likes db) =? 0).
Proof.
  unfold is_liked, countDocuments.
  induction (likes db) as [|d r IH]; [reflexivity|].
  cbn. destruct (mine d); cbn [orb List.length]; [|exact IH].
  symmetry. apply negb_true_iff. apply Z.eqb_neq. lia.
Qed.

(** One toggle on the Like collection, when the user has at most one Like on
    the target: the user's Like flips, and the Likes on the target go up or
    down by one with it. *)
Lemma toggle_rows_flips ls newId (b : bool) :
  NoDup (map Like._id ls) ->
  ~ In newId (map Like._id ls) ->
  countDocuments mine ls = (if b then 1 else 0) ->
  let ls' := toggle_rows user target ty newId ls in
  NoDup (map Like._id ls')
  /\ (forall x, In x (map Like._id ls') ->
                In x (map Like._id ls) \/ x = newId)
  /\ countDocuments mine ls' = (if b then 0 else 1)
  /\ countDocuments (is_like_on target ty) ls'
     = countDocuments (is_like_on target ty) ls + (if b then -1 else 1).
Proof.
  intros Hnd Hnew Hb. unfold toggle_rows.
  destruct (findOne mine ls) as [e|] eqn:Hf.
  - destruct (count_some _ _ Hf) as [Hpos He].
    destruct b; [|lia].
    destruct (unlike_rows ls e Hnd Hf) as (Hnd' & Hsub & Hcount).
    split; [exact Hnd'|]. split; [intros x Hx; left; now apply Hsub|].
    pose proof (Hcount mine) as H1.
    pose proof (Hcount (is_like_on target ty)) as H2.
    rewrite He in H1.
    assert (Hon : is_like_on target ty e = true).
    { unfold is_like_of in He. unfold is_like_on.
      rewrite !andb_true_iff in He. destruct He as [[_ H3] H4].
      now rewrite H3, H4. }
    rewrite Hon in H2. cbv zeta. lia.
  - pose proof (count_none _ Hf) as H0.
    destruct b; [lia|].
    split; [|split; [|split]].
    + rewrite map_app. cbn. apply NoDup_app; [exact Hnd| |].
      * repeat constructor. intros [].
      * intros x Hx [<-|[]]. contradiction.
    + intros x. rewrite map_app, in_app_iff. cbn. intuition congruence.
    + unfold countDocuments in *. rewrite filter_app, length_app.
      cbn [filter]. unfold is_like_of at 2. cbn.
      rewrite !String.eqb_refl.
      replace (LikeableType_eqb ty ty) with true by (now destruct ty).
      cbn. lia.
    + unfold countDocuments in *. rewrite filter_app, length_app.
      cbn [filter]. unfold is_like_on at 2. cbn.
      rewrite !String.eqb_refl.
      replace (LikeableType_eqb ty ty) with true by (now destruct ty).
      cbn. lia.
Qed.
End LikeRows.

Section LikeHandlers.
Variables (session : Session) (email : string) (user : User.t).
Hypothesis Hsession : session_email session = Some email.

Lemma project_like_POST_db projectId newId db :
  isValid projectId = true ->
  findUserByEmail email db = Some user ->
  findById Project._id (toObjectId projectId) (projects db) <> None ->
  ~ In newId (map Like._id (likes db)) ->
  snd (project_like_POST session projectId newId db)
  = with_likes db
      (toggle_rows (User._id user) (toObjectId projectId) project newId
                   (likes db)).
Proof.
  intros Hv Hu Hp Hnew.
  destruct (findById Project._id (toObjectId projectId) (projects db))
    as [pr|] eqn:Hpr; [clear Hp | congruence].
  unfold project_like_POST, save_like, toggle_rows. unfold_handler.
  rewrite Hsession, Hv. cbn [negb]. rewrite Hu, Hpr.
  destruct (findOne _ (likes db)) as [e|] eqn:Hf; [reflexivity|].
  rewrite (like_rows _ _ _ _ _ Hf Hnew). reflexivity.
Qed.

Lemma comment_like_POST_db commentId newId now db c :
  isValid commentId = true ->
  findUserByEmail email db = Some user ->
  findById Comment._id (toObjectId commentId) (comments db) = Some c ->
  ~ In newId (map Like._id (likes db)) ->
  snd (comment_like_POST session commentId newId now db)
  = with_comments
      (with_likes db
         (toggle_rows (User._id user) (toObjectId commentId) comment newId
                      (likes db)))
      (findByIdAndUpdate Comment._id (toObjectId commentId)
         (stamp_likes
            match findOne (is_like_of (User._id user)
                                      (toObjectId commentId) comment)
                          (likes db) with
            | Some _ => -1
            | None => 1
            end (now 0%nat))
         (comments db)).
Proof.
  intros Hv Hu Hc Hnew.
  unfold comment_like_POST, save_like, toggle_rows. unfold_handler.
  rewrite Hsession, Hv. cbn [negb]. rewrite Hu, Hc.
  destruct (findOne _ (likes db)) as [e|] eqn:Hf.
  - cbn [comments with_comments with_likes].
    rewrite findById_update by reflexivity.
    now rewrite String.eqb_refl, Hc.
  - rewrite (like_rows _ _ _ _ _ Hf Hnew).
    cbn [comments with_comments with_likes].
    rewrite findById_update by reflexivity.
    now rewrite String.eqb_refl, Hc.
Qed.

Lemma odd_calls_cons {A} (x : A) l : odd_calls (x :: l) = negb (odd_calls l).
Proof.
  unfold odd_calls. cbn [List.length].
  rewrite Nat.odd_succ. now rewrite <- Nat.negb_odd.
Qed.

Lemma fresh_tail id rest used (used' : list ObjectId) :
  fresh (id :: rest) used ->
  (forall x, In x used' -> In x used \/ x = id) ->
  fresh rest used'.
Proof.
  intros [Hnd Hf] Hsub. apply NoDup_cons_iff in Hnd as [Hid Hnd].
  split; [exact Hnd|]. intros x Hx Hu.
  destruct (Hsub x Hu) as [H| ->]; [|contradiction].
  apply (Hf x); [now right | exact H].
Qed.

(** [n] toggles on a comment: the user's Like flips with every call and the
    stored counter moves with the Like rows of the comment. *)
Lemma comment_like_n_inv commentId :
  isValid commentId = true ->
  forall calls db (b : bool) n c,
    findUserByEmail email db = Some user ->
    findById Comment._id (toObjectId commentId) (comments db) = Some c ->
    NoDup (map Like._id (likes db)) ->
    fresh (map fst calls) (map Like._id (likes db)) ->
    countDocuments (is_like_of (User._id user) (toObjectId commentId)
                               comment) (likes db)
    = (if b then 1 else 0) ->
    count_likes db (toObjectId commentId) comment = n ->
    Comment.likes (Comment.stats c) = n ->
    let db' := comment_like_n session commentId calls db in
    countDocuments (is_like_of (User._id user) (toObjectId commentId)
                               comment) (likes db')
    = (if xorb b (odd_calls calls) then 1 else 0)
    /\ counter_agrees db' (toObjectId commentId) comment.
Proof.
  intros Hv.
  induction calls as [|[id now] rest IH];
    intros db b n c Hu Hc Hnd Hfresh Hb Hn Hs.
  - cbn. rewrite xorb_false_r. split; [exact Hb|].
    unfold counter_agrees, stored_likes. rewrite Hc. cbn. congruence.
  - cbn [comment_like_n map fst] in *.
    assert (Hid : ~ In id (map Like._id (likes db)))
      by (apply (proj2 Hfresh); now left).
    rewrite (comment_like_POST_db _ _ _ _ _ Hv Hu Hc Hid).
    destruct (toggle_rows_flips (User._id user) (toObjectId commentId)
                comment (likes db) id b Hnd Hid Hb)
      as (Hnd' & Hsub & Hmine & Hon).
    rewrite odd_calls_cons.
    replace (xorb b (negb (odd_calls rest)))
      with (xorb (negb b) (odd_calls rest))
      by (now destruct b, (odd_calls rest)).
    eapply IH.
    + exact Hu.
    + cbn [comments with_comments].
      rewrite findById_update by reflexivity.
      now rewrite String.eqb_refl, Hc.
    + exact Hnd'.
    + eapply fresh_tail; [exact Hfresh | exact Hsub].
    + cbn [likes with_likes with_comments]. rewrite Hmine.
      now destruct b.
    + reflexivity.
    + unfold count_likes. cbn [likes with_likes with_comments].
      rewrite Hon. unfold count_likes in Hn. rewrite Hn.
      cbn. rewrite Hs.
      destruct (findOne _ (likes db)) as [e|] eqn:Hf.
      * destruct (count_some _ _ _ _ _ Hf) as [Hpos _].
        destruct b; [reflexivity | lia].
      * pose proof (count_none _ _ _ _ Hf).
        destruct b; [lia | reflexivity].
Qed.

(** [n] toggles on a project: the user's Like flips with every call; no
    write goes to the projects. *)
Lemma project_like_n_inv projectId :
  isValid projectId = true ->
  forall calls db (b : bool) n,
    findUserByEmail email db = Some user ->
    findById Project._id (toObjectId projectId) (projects db) <> None ->
    NoDup (map Like._id (likes db)) ->
    fresh calls (map Like._id (likes db)) ->
    countDocuments (is_like_of (User._id user) (toObjectId projectId)
                               project) (likes db)
    = (if b then 1 else 0) ->
    count_likes db (toObjectId projectId) project = n ->
    let db' := project_like_n session projectId calls db in
    countDocuments (is_like_of (User._id user) (toObjectId projectId)
                               project) (likes db')
    = (if xorb b (odd_calls calls) then 1 else 0)
    /\ count_likes db' (toObjectId projectId) project
       = n + (if odd_calls calls then (if b then -1 else 1) else 0)
    /\ projects db' = projects db.
Proof.
  intros Hv.
  induction calls as [|id rest IH]; intros db b n Hu Hp Hnd Hfresh Hb Hn.
  - cbn. rewrite xorb_false_r. repeat split; [exact Hb | lia].
  - cbn [project_like_n].
    assert (Hid : ~ In id (map Like._id (likes db)))
      by (apply (proj2 Hfresh); now left).
    rewrite (project_like_POST_db _ _ _ Hv Hu Hp Hid).
    destruct (toggle_rows_flips (User._id user) (toObjectId projectId)
                project (likes db) id b Hnd Hid Hb)
      as (Hnd' & Hsub & Hmine & Hon).
    rewrite odd_calls_cons.
    replace (xorb b (negb (odd_calls rest)))
      with (xorb (negb b) (odd_calls rest))
      by (now destruct b, (odd_calls rest)).
    edestruct (IH (with_likes db
                     (toggle_rows (User._id user) (toObjectId projectId)
                                  project id (likes db)))
                  (negb b)) as (H1 & H2 & H3).
    + exact Hu.
    + exact Hp.
    + exact Hnd'.
    + eapply fresh_tail; [exact Hfresh | exact Hsub].
    + cbn [likes with_likes]. rewrite Hmine. now destruct b.
    + reflexivity.
    + split; [exact H1|]. split; [|exact H3].
      rewrite H2. unfold count_likes at 1. cbn [likes with_likes].
      rewrite Hon. unfold count_likes in Hn. rewrite Hn.
      destruct b, (odd_calls rest); cbn; lia.
Qed.
End LikeHandlers.

Lemma count_mine_le user target ty ls :
  0 <= countDocuments (is_like_of user target ty) ls
       <= countDocuments (is_like_on target ty) ls.
Proof.
  unfold countDocuments, is_like_of, is_like_on.
  induction ls as [|d r IH]; cbn; [lia|].
  destruct (String.eqb (Like.userId d) user); cbn [andb];
    destruct (String.eqb (Like.targetId d) target
              && LikeableType_eqb (Like.targetType d) ty);
    cbn [List.length]; lia.
Qed.

Lemma project_GET_counts_rows session id db st stats :
  fst (project_GET session id db) = Json st stats ->
  Project.likes stats = count_likes db (toObjectId id) project.
Proof.
  intros H. unfold project_GET in H. unfold_handler_in H.
  repeat step H. cbn in H. now injection H as _ <-.
Qed.

(** C2 (amended): from a clean state of the target, after [n] toggles in
    sequence by one user the target is liked exactly when [n] is odd, for a
    comment and for a project alike, each under its own conditions: a
    comment target needs no clean project, and a project target no comment.
    (The Likes have distinct [_id]s, as in any MongoDB collection, and every
    new Like gets a new one.)  For a comment the stored stats.likes equals
    the count of the Like rows of the comment.  For a project the toggles
    write no project: the Like rows are the count, 1 when [n] is odd and 0
    otherwise, and that recomputed count is what GET /api/projects/[id]
    reports. *)
Theorem toggles_alternate_and_comment_counter_agrees
    session email user commentId projectId ccalls pcalls db :
  session_email session = Some email ->
  findUserByEmail email db = Some user ->
  NoDup (map Like._id (likes db)) ->
  (isValid commentId = true ->
   clean db (toObjectId commentId) comment ->
   fresh (map fst ccalls) (map Like._id (likes db)) ->
   let dbc := comment_like_n session commentId ccalls db in
   is_liked dbc (User._id user) (toObjectId commentId) comment
   = odd_calls ccalls
   /\ counter_agrees dbc (toObjectId commentId) comment)
  /\ (isValid projectId = true ->
      clean db (toObjectId projectId) project ->
      fresh pcalls (map Like._id (likes db)) ->
      let dbp := project_like_n session projectId pcalls db in
      is_liked dbp (User._id user) (toObjectId projectId) project
      = odd_calls pcalls
      /\ count_likes dbp (toObjectId projectId) project
         = (if odd_calls pcalls then 1 else 0)
      /\ projects dbp = projects db
      /\ forall session' st stats,
           fst (project_GET session' projectId dbp) = Json st stats ->
           Project.likes stats
           = count_likes dbp (toObjectId projectId) project).
Proof.
  intros Hs Hu Hnd.
  split.
  - intros Hvc [Hc0 Hcs] Hfc. cbv zeta.
    unfold stored_likes in Hcs.
    destruct (findById Comment._id (toObjectId commentId) (comments db))
      as [c|] eqn:Hc; [|discriminate].
    cbn in Hcs. injection Hcs as Hcs.
    pose proof (count_mine_le (User._id user) (toObjectId commentId) comment
                              (likes db)) as Hle.
    unfold count_likes in Hc0.
    destruct (comment_like_n_inv session email user Hs commentId Hvc
                ccalls db false 0 c Hu Hc Hnd Hfc) as [H1 H2];
      [lia | exact Hc0 | exact Hcs |].
    split; [|exact H2].
    rewrite is_liked_count. rewrite H1. cbn [xorb].
    now destruct (odd_calls ccalls).
  - intros Hvp [Hp0 Hps] Hfp. cbv zeta.
    unfold stored_likes in Hps.
    assert (Hp : findById Project._id (toObjectId projectId) (projects db)
                 <> None)
      by (destruct (findById Project._id _ (projects db)); [discriminate|];
          discriminate Hps).
    pose proof (count_mine_le (User._id user) (toObjectId projectId) project
                              (likes db)) as Hle.
    unfold count_likes in Hp0.
    destruct (project_like_n_inv session email user Hs projectId Hvp
                pcalls db false 0 Hu Hp Hnd Hfp) as (H1 & H2 & H3);
      [lia | exact Hp0 |].
    split; [|split; [|split]].
    + rewrite is_liked_count. rewrite H1. cbn [xorb].
      now destruct (odd_calls pcalls).
    + rewrite H2. now destruct (odd_calls pcalls).
    + exact H3.
    + intros session' st stats. apply project_GET_counts_rows.
Qed.

Lemma toggles_alternate_and_comment_counter_agrees_witness :
  let ccalls :=
    [(Sample.idL, Sample.at_time 7); (Sample.idE, Sample.at_time 8);
     ("0000000000000000000000f3", Sample.at_time 9)] in
  let pcalls := [Sample.idL; Sample.idE] in
  let dbc := comment_like_n Sample.as_bob Sample.idA ccalls Sample.db in
  let dbp := project_like_n Sample.as_bob Sample.p1 pcalls Sample.db in
  (is_liked dbc (User._id Sample.bob) (toObjectId Sample.idA) comment
   = odd_calls ccalls
   /\ counter_agrees dbc (toObjectId Sample.idA) comment)
  /\ (is_liked dbp (User._id Sample.bob) (toObjectId Sample.p1) project
      = odd_calls pcalls
      /\ count_likes dbp (toObjectId Sample.p1) project
         = (if odd_calls pcalls then 1 else 0)
      /\ projects dbp = projects Sample.db
      /\ forall session' st stats,
           fst (project_GET session' Sample.p1 dbp) = Json st stats ->
           Project.likes stats
           = count_likes dbp (toObjectId Sample.p1) project).
Proof.
  intros ccalls pcalls.
  destruct (toggles_alternate_and_comment_counter_agrees
              Sample.as_bob "bob@example.com" Sample.bob Sample.idA Sample.p1
              ccalls pcalls Sample.db eq_refl eq_refl (NoDup_nil _))
    as [Hc Hp].
  split.
  - apply Hc.
    + reflexivity.
    + split; reflexivity.
    + split; [repeat constructor; cbn; intuition discriminate
             | intros ? ? []].
  - apply Hp.
    + reflexivity.
    + split; reflexivity.
    + split; [repeat constructor; cbn; intuition discriminate
             | intros ? ? []].
Defined.

(** ** What the listing counts, in general *)

Lemma In_page {A} (x : A) n m l : In x (firstn n (skipn m l)) -> In x l.
Proof.
  intros H.
  rewrite <- (firstn_skipn m l). apply in_or_app. right.
  rewrite <- (firstn_skipn n (skipn m l)). apply in_or_app. now left.
Qed.

Lemma In_insert_by {A} (key : A -> Z) ascending x y l :
  In y (insert_by key ascending x l) -> y = x \/ In y l.
Proof.
  induction l as [|z r IH]; cbn.
  - intuition congruence.
  - destruct (if ascending then key x <=? key z else key z <=? key x); cbn.
    + intuition congruence.
    + intros [H|H]; [auto | apply IH in H; tauto].
Qed.

Lemma In_sort_by {A} (key : A -> Z) ascending y l :
  In y (sort_by key ascending l) -> In y l.
Proof.
  unfold sort_by. induction l as [|x r IH]; cbn; [tauto|].
  intros H. apply In_insert_by in H. destruct H as [->|H]; auto.
Qed.

(** X2: every entry of the listing reports, as its reply count, the number
    of comments whose parentCommentId is the entry, whatever their
    isActive. *)
Lemma listing_counts_all_replies session projectId q db st views total v :
  fst (comments_GET session projectId q db) = Json st (views, total) ->
  In v views ->
  view_replies v
  = countDocuments (is_reply_to (view_id v)) (comments db).
Proof.
  intros H Hv. unfold comments_GET in H. unfold_handler_in H.
  repeat step H.
  all: cbn [fst] in H; injection H as _ <- _.
  all: apply In_page, In_sort_by, in_map_iff in Hv.
  all: destruct Hv as [[c u] [<- _]]; reflexivity.
Qed.

Lemma listing_counts_all_replies_witness :
  exists v,
    view_id v = Sample.idA
    /\ view_replies v
       = countDocuments (is_reply_to (view_id v)) (comments Sample.db).
Proof.
  assert (H := fun v =>
            listing_counts_all_replies
              Sample.as_bob Sample.p1 Sample.first_page Sample.db 200 _ _ v
              eq_refl).
  eexists. split; [|apply (H _ (or_introl eq_refl))]. reflexivity.
Defined.

(** X3: the single-comment GET, for comparison, returns active replies
    only. *)
Lemma comment_GET_replies_are_active session commentId db st c replies r :
  fst (comment_GET session commentId db) = Json st (c, replies) ->
  In r replies -> Comment.isActive r = true.
Proof.
  intros H Hr. unfold comment_GET in H. unfold_handler_in H.
  repeat step H. cbn [fst] in H. injection H as _ _ <-.
  apply In_sort_by, in_map_iff in Hr.
  destruct Hr as [[r' u] [<- Hin]]. cbn [fst].
  unfold with_author in Hin. apply in_flat_map in Hin.
  destruct Hin as [x [Hx Hin]]. apply in_map_iff in Hin.
  destruct Hin as [u' [Heq _]]. injection Heq as <- _.
  apply filter_In in Hx. destruct Hx as [_ Hx].
  apply andb_true_iff in Hx. tauto.
Qed.

Lemma comment_GET_replies_are_active_witness :
  exists r, Comment._id r = Sample.idB /\ Comment.isActive r = true.
Proof.
  assert (H := fun r =>
            comment_GET_replies_are_active
              Sample.as_bob Sample.idA Sample.db 200 _ _ r eq_refl).
  eexists. split; [|apply (H _ (or_introl eq_refl))]. reflexivity.
Defined.

(** ** The self-follow check, on the id string itself *)

(** X4: when the route parameter is the signed-in user's own id string, as
    [toString()] gives it, the request is refused before any write. *)
Lemma self_follow_by_id_string_is_rejected session email user newId db :
  session_email session = Some email ->
  findUserByEmail email db = Some user ->
  canonical (User._id user) = true ->
  follow_POST session (User._id user) newId db
  = (Error 400 "You cannot follow yourself", db).
Proof.
  intros Hs Hu Hc. apply canonical_spec in Hc as [Hv Hc].
  unfold follow_POST. unfold_handler.
  rewrite Hs, Hv. cbn [negb]. rewrite Hu, Hc.
  destruct (findById User._id (User._id user) (users db)) eqn:Hf.
  - now rewrite String.eqb_refl.
  - exfalso. apply findById_None in Hf. apply Hf.
    apply find_some in Hu. destruct Hu as [Hin _]. now apply in_map.
Qed.

Lemma self_follow_by_id_string_is_rejected_witness :
  follow_POST Sample.as_alice (User._id Sample.alice) Sample.idL Sample.db
  = (Error 400 "You cannot follow yourself", Sample.db).
Proof.
  apply (self_follow_by_id_string_is_rejected
           Sample.as_alice "alice@example.com" Sample.alice Sample.idL
           Sample.db);
    reflexivity.
Defined.

(** * Further properties of the code *)

(** ** The route guard *)

Lemma prefix_second_char a b c r s :
  b <> c ->
  String.prefix (String a (String b r)) s = true ->
  String.prefix (String a (String c EmptyString)) s = false.
Proof.
  intros Hbc H. destruct s as [|x [|y s']]; cbn in *; try discriminate.
  - destruct (ascii_dec a x); discriminate.
  - destruct (ascii_dec a x); [|discriminate].
    destruct (ascii_dec b y); [|discriminate].
    destruct (ascii_dec c y); [congruence | reflexivity].
Qed.

Lemma prefix_longer p q s :
  String.prefix p s = false -> String.prefix (String.append p q) s = false.
Proof.
  revert s. induction p as [|a p IH]; intros s H; [destruct s; discriminate|].
  destruct s as [|x s']; [reflexivity|]. cbn in *.
  destruct (ascii_dec a x); [now apply IH | reflexivity].
Qed.

(** X5: the role "user" is refused exactly on the paths that start with
    /admin-dashboard, /manager-dashboard, /api/admin or /api/moderator. *)
Theorem user_role_is_refused_on pathname :
  hasRequiredRole "user" pathname
  = negb (startsWith pathname "/admin-dashboard"
          || startsWith pathname "/manager-dashboard"
          || startsWith pathname "/api/admin"
          || startsWith pathname "/api/moderator").
Proof.
  unfold hasRequiredRole, protectedRoutes. cbn [hasRequiredRole_in].
  destruct (startsWith pathname "/admin-dashboard") eqn:H1; [reflexivity|].
  destruct (startsWith pathname "/manager-dashboard") eqn:H2; [reflexivity|].
  destruct (startsWith pathname "/user-dashboard") eqn:H3.
  - unfold startsWith in *.
    pose proof (prefix_second_char "/" "u" "a" _ pathname
                  ltac:(discriminate) H3) as Ha.
    assert (Hadm : String.prefix "/api/admin" pathname = false)
      by exact (prefix_longer "/a" "pi/admin" pathname Ha).
    assert (Hmod : String.prefix "/api/moderator" pathname = false)
      by exact (prefix_longer "/a" "pi/moderator" pathname Ha).
    now rewrite Hadm, Hmod.
  - destruct (startsWith pathname "/api/admin"); [reflexivity|].
    destruct (startsWith pathname "/api/moderator"); reflexivity.
Qed.

(** X6: whenever [authorized] answers true, the only case in which
    [withAuth] calls it, the function [middleware] answers
    [NextResponse.next()], or, for a token whose role the path does not
    admit, the redirect to /unauthorized.  It never redirects to a dashboard
    and never to /auth/login: the path "/" is a public route, so the branch
    for "/" is not reached, and a request without token on a path that is
    not public does not pass [authorized]. *)
Theorem middleware_never_redirects_to_a_dashboard pathname token :
  authorized pathname token = true ->
  middleware pathname token = Next
  \/ exists userRole,
       token = Some userRole
       /\ isPublicRoute pathname = false
       /\ hasRequiredRole userRole pathname = false
       /\ middleware pathname token = RedirectTo "/unauthorized" None.
Proof.
  unfold middleware, authorized.
  destruct (isPublicRoute pathname) eqn:Hp; [now left|].
  destruct token as [role|]; [intros _ | discriminate].
  destruct (hasRequiredRole role pathname) eqn:Hr; cbn [negb].
  - destruct (String.eqb_spec pathname "/") as [->|_]; [|now left].
    discriminate Hp.
  - right. exists role. repeat split; [exact Hr].
Qed.

Lemma middleware_never_redirects_to_a_dashboard_witness :
  middleware "/admin-dashboard/users" (Some "user") = Next
  \/ exists userRole,
       Some "user" = Some userRole
       /\ isPublicRoute "/admin-dashboard/users" = false
       /\ hasRequiredRole userRole "/admin-dashboard/users" = false
       /\ middleware "/admin-dashboard/users" (Some "user")
          = RedirectTo "/unauthorized" None.
Proof.
  apply (middleware_never_redirects_to_a_dashboard
           "/admin-dashboard/users" (Some "user")).
  reflexivity.
Defined.

(** X7: every path under /api/projects is public: the middleware lets the
    request through with or without a token, so the like and comment routes
    are reached by anonymous requests and answer 401 themselves. *)
Theorem project_api_is_public pathname token :
  startsWith pathname "/api/projects" = true ->
  middleware pathname token = Next /\ authorized pathname token = true.
Proof.
  intros H.
  assert (Hp : isPublicRoute pathname = true).
  { unfold isPublicRoute. apply existsb_exists.
    exists "/api/projects*". split; [cbn; tauto|]. exact H. }
  unfold middleware, authorized. now rewrite Hp.
Qed.

Lemma project_api_is_public_witness :
  middleware "/api/projects/000000000000000000000001/like" None = Next
  /\ authorized "/api/projects/000000000000000000000001/like" None = true.
Proof.
  apply (project_api_is_public
           "/api/projects/000000000000000000000001/like" None).
  reflexivity.
Defined.

(** ** Follow helpers *)

Lemma found_find {A} (p : A -> bool) l : found (find p l) = existsb p l.
Proof.
  induction l as [|x r IH]; [reflexivity|]. cbn. now destruct (p x).
Qed.

(** X8: the follow status of the target towards the current user is the
    status of the current user towards the target, reversed: following and
    followed_by change places, mutual and none stay. *)
Theorem getFollowStatus_reversed a b fs :
  getFollowStatus b a fs = reverse_status (getFollowStatus a b fs).
Proof.
  unfold getFollowStatus.
  destruct (existsb (is_follow_of a b) fs), (existsb (is_follow_of b a) fs);
    reflexivity.
Qed.

(** X9: [getFollowStatus] answers mutual exactly when [checkMutualFollow]
    holds, and [checkMutualFollow] does not depend on the order of the two
    users. *)
Theorem mutual_status_iff_checkMutualFollow a b fs :
  (getFollowStatus a b fs = status_mutual <-> checkMutualFollow a b fs = true)
  /\ checkMutualFollow a b fs = checkMutualFollow b a fs.
Proof.
  unfold getFollowStatus, checkMutualFollow. rewrite !found_find.
  destruct (existsb (is_follow_of a b) fs), (existsb (is_follow_of b a) fs);
    cbn; repeat split; intros; try reflexivity; try discriminate.
Qed.

(** ** Comment helpers *)

(** X10: the depth [calculateCommentDepth] gives to a reply is a valid thread
    depth whenever the parent's depth is, and a comment without parent gets
    depth 0. *)
Theorem calculateCommentDepth_is_valid parent :
  Comment.validateThreadDepth (Comment.depth (Comment.metadata parent)) = true ->
  Comment.validateThreadDepth (Comment.calculateCommentDepth (Some parent))
  = true
  /\ Comment.calculateCommentDepth None = 0.
Proof.
  unfold Comment.validateThreadDepth, Comment.calculateCommentDepth,
    Comment.MAX_THREAD_DEPTH.
  rewrite !andb_true_iff, !Z.leb_le. intros [H1 H2]. split; [lia | reflexivity].
Qed.

Lemma calculateCommentDepth_is_valid_witness :
  Comment.validateThreadDepth
    (Comment.calculateCommentDepth
       (Some (Sample.reply_of Sample.idD "Same here" (Some Sample.idC) 0 3)))
  = true
  /\ Comment.calculateCommentDepth None = 0.
Proof.
  apply (calculateCommentDepth_is_valid
           (Sample.reply_of Sample.idD "Same here" (Some Sample.idC) 0 3)).
  reflexivity.
Defined.

(** X11: for a comment that [canReplyToComment] allows a reply to,
    [calculateCommentDepth] does not truncate (the reply is one level below
    the comment) and the depth test of the POST route passes. *)
Theorem reply_depth_of_a_repliable_comment c :
  Comment.canReplyToComment c = true ->
  Comment.calculateCommentDepth (Some c)
  = Comment.depth (Comment.metadata c) + 1
  /\ (Comment.depth (Comment.metadata c) + 1 >? 5) = false
  /\ Comment.isActive c = true.
Proof.
  unfold Comment.canReplyToComment, Comment.calculateCommentDepth,
    Comment.MAX_THREAD_DEPTH.
  rewrite !andb_true_iff, Z.ltb_lt. intros [[H1 H2] _].
  split; [lia|]. split; [|exact H2].
  destruct (Z.gtb_spec (Comment.depth (Comment.metadata c) + 1) 5);
    [lia | reflexivity].
Qed.

Lemma reply_depth_of_a_repliable_comment_witness :
  let c := Sample.reply_of Sample.idD "Same here" (Some Sample.idC) 0 3 in
  Comment.calculateCommentDepth (Some c)
  = Comment.depth (Comment.metadata c) + 1
  /\ (Comment.depth (Comment.metadata c) + 1 >? 5) = false
  /\ Comment.isActive c = true.
Proof.
  apply (reply_depth_of_a_repliable_comment
           (Sample.reply_of Sample.idD "Same here" (Some Sample.idC) 0 3)).
  reflexivity.
Defined.

(** ** Formatting a comment *)

Lemma no_triple_break_other c s :
  N.eqb c LF = false -> no_triple_break (c :: s) = no_triple_break s.
Proof.
  intros H. destruct s as [|a [|b r]]; cbn; rewrite ?H; reflexivity.
Qed.

Lemma no_triple_break_break_other c s :
  N.eqb c LF = false ->
  no_triple_break (LF :: c :: s) = no_triple_break s.
Proof.
  intros H. rewrite <- (no_triple_break_other c s H).
  destruct s as [|a r]; cbn; rewrite ?H; cbn; rewrite ?andb_false_r;
    reflexivity.
Qed.

Lemma no_triple_break_two_breaks_other c s :
  N.eqb c LF = false ->
  no_triple_break (LF :: LF :: c :: s) = no_triple_break s.
Proof.
  intros H. rewrite <- (no_triple_break_break_other c s H).
  change (no_triple_break (LF :: LF :: c :: s))
    with (negb (N.eqb LF LF && N.eqb LF LF && N.eqb c LF)
          && no_triple_break (LF :: c :: s)).
  now rewrite H, andb_false_r.
Qed.

Lemma collapseLineBreaks_bounded s :
  forall run,
    no_triple_break
      (repeat LF (Nat.min run 2) ++ collapseLineBreaks run s) = true.
Proof.
  induction s as [|c r IH]; intros run.
  - cbn [collapseLineBreaks]. rewrite app_nil_r.
    assert (H2 : (Nat.min run 2 = 0 \/ Nat.min run 2 = 1
                  \/ Nat.min run 2 = 2)%nat) by lia.
    destruct H2 as [-> | [-> | ->]]; reflexivity.
  - cbn [collapseLineBreaks].
    destruct (N.eqb c LF) eqn:Hc.
    + apply N.eqb_eq in Hc. subst c.
      destruct (Nat.ltb_spec run 2) as [Hr|Hr].
      * specialize (IH (S run)).
        replace (Nat.min (S run) 2) with (S (Nat.min run 2)) in IH by lia.
        replace (repeat LF (Nat.min run 2) ++ LF :: collapseLineBreaks (S run) r)
          with (repeat LF (S (Nat.min run 2)) ++ collapseLineBreaks (S run) r);
          [exact IH|].
        cbn [repeat]. rewrite repeat_cons, <- app_assoc. reflexivity.
      * specialize (IH (S run)).
        replace (Nat.min (S run) 2) with (Nat.min run 2) in IH by lia.
        exact IH.
    + specialize (IH 0%nat). cbn [Nat.min repeat app] in IH.
      assert (H2 : (Nat.min run 2 = 0 \/ Nat.min run 2 = 1
                    \/ Nat.min run 2 = 2)%nat) by lia.
      destruct H2 as [-> | [-> | ->]]; cbn [repeat app].
      * now rewrite no_triple_break_other.
      * now rewrite no_triple_break_break_other.
      * now rewrite no_triple_break_two_breaks_other.
Qed.

Lemma collapseLineBreaks_length s :
  forall run,
    (List.length (collapseLineBreaks run s) <= List.length s)%nat.
Proof.
  induction s as [|c r IH]; intros run; cbn [collapseLineBreaks List.length];
    [lia|].
  pose proof (IH (S run)). pose proof (IH 0%nat).
  destruct (N.eqb c LF); [destruct (run <? 2)%nat|]; cbn [List.length]; lia.
Qed.

Lemma collapseLineBreaks_again s :
  forall run,
    collapseLineBreaks (Nat.min run 2) (collapseLineBreaks run s)
    = collapseLineBreaks run s.
Proof.
  induction s as [|c r IH]; intros run; [reflexivity|].
  cbn [collapseLineBreaks].
  destruct (N.eqb c LF) eqn:Hc.
  - destruct (Nat.ltb_spec run 2) as [Hr|Hr].
    + cbn [collapseLineBreaks]. rewrite Hc.
      replace (Nat.min run 2) with run by lia.
      destruct (Nat.ltb_spec run 2); [|lia].
      specialize (IH (S run)).
      replace (Nat.min (S run) 2) with (S run) in IH by lia.
      now rewrite IH.
    + specialize (IH (S run)).
      replace (Nat.min (S run) 2) with (Nat.min run 2) in IH by lia.
      exact IH.
  - cbn [collapseLineBreaks]. rewrite Hc.
    specialize (IH 0%nat). cbn [Nat.min] in IH. now rewrite IH.
Qed.

(** X12: a formatted comment has no three line feeds in a row and is not
    longer than the text it was made from; a run of one or two line feeds is
    kept as it is. *)
Theorem formatCommentContent_limits_line_breaks content :
  no_triple_break (formatCommentContent content) = true
  /\ js_length (formatCommentContent content) <= js_length content
  /\ collapseLineBreaks 0 (formatCommentContent content)
     = formatCommentContent content.
Proof.
  unfold formatCommentContent. split; [|split].
  - exact (collapseLineBreaks_bounded (trim content) 0).
  - pose proof (collapseLineBreaks_length (trim content) 0).
    pose proof (trim_length content). unfold js_length in *. lia.
  - exact (collapseLineBreaks_again (trim content) 0).
Qed.

(** ** Mentions *)

Lemma JSString_eqb_eq a b : JSString_eqb a b = true <-> a = b.
Proof.
  unfold JSString_eqb. destruct (list_eq_dec N.eq_dec a b); split; congruence.
Qed.

Lemma dedupe_spec l :
  forall seen,
    NoDup (dedupe seen l)
    /\ forall x, In x (dedupe seen l) <-> In x l /\ ~ In x seen.
Proof.
  induction l as [|y r IH]; intros seen; cbn [dedupe].
  - split; [constructor | cbn; tauto].
  - destruct (existsb (JSString_eqb y) seen) eqn:He.
    + apply existsb_exists in He. destruct He as [z [Hz Hyz]].
      apply JSString_eqb_eq in Hyz. subst z.
      destruct (IH seen) as [Hnd Hin]. split; [exact Hnd|].
      intros x. rewrite Hin. cbn. split; [tauto|].
      intros [[<-|H] Hs]; [contradiction | tauto].
    + assert (Hy : ~ In y seen).
      { intros Hy. apply not_true_iff_false in He. apply He.
        apply existsb_exists. exists y. split; [exact Hy|].
        now apply JSString_eqb_eq. }
      destruct (IH (y :: seen)) as [Hnd Hin]. split.
      * constructor; [|exact Hnd]. rewrite Hin. cbn. tauto.
      * intros x. cbn. rewrite Hin. cbn.
        destruct (list_eq_dec N.eq_dec y x) as [->|Hne]; tauto.
Qed.

Lemma scanMentions_names s :
  forall cur m,
    (forall n, cur = Some n -> forallb is_mention_char n = true) ->
    In m (scanMentions s cur) ->
    m <> [] /\ forallb is_mention_char m = true.
Proof.
  assert (Hemit : forall n m, forallb is_mention_char n = true ->
                              In m (emit n) ->
                              m <> [] /\ forallb is_mention_char m = true).
  { intros n m Hn Hm. destruct n as [|a n]; [contradiction|].
    destruct Hm as [<-|[]]. split; [discriminate | exact Hn]. }
  induction s as [|c r IH]; intros cur m Hcur Hm; cbn [scanMentions] in Hm.
  - destruct cur as [n|]; [|contradiction].
    apply (Hemit n); [now apply Hcur | exact Hm].
  - destruct cur as [n|].
    + destruct (is_mention_char c) eqn:Hc.
      * apply (IH (Some (n ++ [c])) m); [|exact Hm].
        intros n' E. injection E as <-.
        rewrite forallb_app, (Hcur n eq_refl). cbn. now rewrite Hc.
      * apply in_app_or in Hm. destruct Hm as [Hm|Hm].
        -- apply (Hemit n); [now apply Hcur | exact Hm].
        -- apply (IH (if N.eqb c AT then Some [] else None) m); [|exact Hm].
           intros n' E. destruct (N.eqb c AT); [|discriminate].
           now injection E as <-.
    + apply (IH (if N.eqb c AT then Some [] else None) m); [|exact Hm].
      intros n' E. destruct (N.eqb c AT); [|discriminate].
      now injection E as <-.
Qed.

(** X13: [extractMentions] returns every name once, and every name it
    returns is not empty and made of letters, digits, [_] and [-] only. *)
Theorem extractMentions_names content :
  NoDup (extractMentions content)
  /\ forall m, In m (extractMentions content) ->
               m <> [] /\ forallb is_mention_char m = true.
Proof.
  unfold extractMentions.
  destruct (dedupe_spec (scanMentions content None) []) as [Hnd Hin].
  split; [exact Hnd|]. intros m Hm. apply Hin in Hm. destruct Hm as [Hm _].
  apply (scanMentions_names content None m); [discriminate | exact Hm].
Qed.

(** A text without [@] mentions nobody. *)
Lemma scanMentions_without_at s :
  forallb (fun c => negb (N.eqb c AT)) s = true -> scanMentions s None = [].
Proof.
  induction s as [|c r IH]; [reflexivity|]. cbn.
  rewrite andb_true_iff, negb_true_iff. intros [Hc Hr].
  rewrite Hc. now apply IH.
Qed.

(** ** More on collections *)

Section MoreCollectionFacts.
Context {D : Type}.
Variable idOf : D -> ObjectId.

Lemma ids_updateMany p f l :
  (forall d, idOf (f d) = idOf d) ->
  map idOf (updateMany p f l) = map idOf l.
Proof.
  intros Hf. unfold updateMany. rewrite map_map. apply map_ext.
  intros d. destruct (p d); [apply Hf | reflexivity].
Qed.

(** With distinct ids, the document [findById] finds is the only one with
    that id. *)
Lemma findById_only k l d x :
  NoDup (map idOf l) ->
  findById idOf k l = Some d -> In x l -> idOf x = k -> x = d.
Proof.
  unfold findById, findOne.
  induction l as [|e r IH]; intros Hnd Hf Hin Hx; [contradiction|].
  cbn in Hnd. apply NoDup_cons_iff in Hnd as [He Hr]. cbn in Hf.
  destruct (String.eqb_spec (idOf e) k) as [E|E].
  - injection Hf as <-. destruct Hin as [->|Hin]; [reflexivity|].
    exfalso. apply He. rewrite E, <- Hx. now apply in_map.
  - destruct Hin as [->|Hin]; [congruence|]. now apply IH.
Qed.

Lemma deleteOne_last (p : D -> bool) (l : list D) (d : D) :
  (forall e, In e l -> p e = false) -> p d = true ->
  deleteOne p (l ++ [d]) = l.
Proof.
  intros Hl Hd. induction l as [|e r IH]; cbn.
  - now rewrite Hd.
  - rewrite (Hl e) by now left. f_equal. apply IH.
    intros x Hx. apply Hl. now right.
Qed.

Lemma find_last (p : D -> bool) (l : list D) (d : D) :
  find p l = None -> p d = true -> find p (l ++ [d]) = Some d.
Proof.
  intros Hl Hd. induction l as [|e r IH]; cbn in *.
  - now rewrite Hd.
  - destruct (p e); [discriminate | now apply IH].
Qed.

Lemma update_twice k f g l :
  (forall d, idOf (f d) = idOf d) ->
  findByIdAndUpdate idOf k g (findByIdAndUpdate idOf k f l)
  = findByIdAndUpdate idOf k (fun d => g (f d)) l.
Proof.
  intros Hf. induction l as [|e r IH]; [reflexivity|]. cbn.
  destruct (String.eqb_spec (idOf e) k) as [E|E]; cbn.
  - now rewrite Hf, E, String.eqb_refl.
  - destruct (String.eqb_spec (idOf e) k); [congruence|]. now rewrite IH.
Qed.

Lemma update_same k f l :
  (forall d, f d = d) -> findByIdAndUpdate idOf k f l = l.
Proof.
  intros Hf. induction l as [|e r IH]; [reflexivity|]. cbn.
  destruct (String.eqb (idOf e) k); [now rewrite Hf | now rewrite IH].
Qed.
End MoreCollectionFacts.

(** ** More on DELETE of a comment *)

(** X14: with the session, the user and the comment in place, DELETE
    succeeds exactly for the author of the comment and for a user whose role
    is admin; anybody else, a moderator included, is answered 403 and nothing
    is written. *)
Theorem comment_DELETE_is_for_the_author_or_an_admin
    session commentId now db email user c :
  session_email session = Some email ->
  isValid commentId = true ->
  findUserByEmail email db = Some user ->
  findById Comment._id (toObjectId commentId) (comments db) = Some c ->
  if String.eqb (Comment.authorId c) (User._id user)
     || String.eqb (User.role user) "admin"
  then fst (comment_DELETE session commentId now db) = Json 200 tt
  else comment_DELETE session commentId now db
       = (Error 403 "You can only delete your own comments", db).
Proof.
  intros H1 H2 H3 H4.
  unfold comment_DELETE. unfold_handler.
  rewrite H1, H2. cbn [negb]. rewrite H3, H4.
  destruct (String.eqb (Comment.authorId c) (User._id user));
    destruct (String.eqb (User.role user) "admin"); cbn [negb andb orb];
    try reflexivity; now destruct (Comment.parentCommentId c).
Qed.

Lemma comment_DELETE_is_for_the_author_or_an_admin_witness :
  comment_DELETE Sample.as_bob Sample.idA (Sample.at_time 200) Sample.db
  = (Error 403 "You can only delete your own comments", Sample.db).
Proof.
  apply (comment_DELETE_is_for_the_author_or_an_admin
           Sample.as_bob Sample.idA (Sample.at_time 200) Sample.db
           "bob@example.com" Sample.bob
           (Sample.reply_of Sample.idA "Nice work" None 1 0));
    reflexivity.
Defined.

(** X15: a DELETE that answers an error has written nothing. *)
Theorem comment_DELETE_error_writes_nothing
    session commentId now db st e db' :
  comment_DELETE session commentId now db = (Error st e, db') -> db' = db.
Proof.
  intros H. unfold comment_DELETE in H. unfold_handler_in H.
  repeat step H. all: now injection H as _ _ <-.
Qed.

Lemma comment_DELETE_error_writes_nothing_witness :
  Sample.db = Sample.db.
Proof.
  symmetry.
  apply (comment_DELETE_error_writes_nothing
           Sample.as_bob Sample.idA (Sample.at_time 200) Sample.db
           403 "You can only delete your own comments" Sample.db).
  reflexivity.
Defined.

Lemma delete_effect_stats target parent now cs id d :
  findById Comment._id id cs = Some d ->
  exists d',
    findById Comment._id id
      (updateMany (is_reply_to target) (stamp_delete (now 2%nat))
         (match parent with
          | Some p =>
              findByIdAndUpdate Comment._id p (stamp_replies (-1) (now 1%nat))
          | None => fun cs => cs
          end
            (findByIdAndUpdate Comment._id target (stamp_delete (now 0%nat))
                               cs)))
    = Some d'
    /\ Comment.likes (Comment.stats d') = Comment.likes (Comment.stats d)
    /\ Comment.replies (Comment.stats d')
       = Comment.replies (Comment.stats d)
         + match parent with
           | Some p => if String.eqb id p then -1 else 0
           | None => 0
           end
    /\ Comment.projectId d' = Comment.projectId d
    /\ Comment.createdAt d' = Comment.createdAt d.
Proof.
  intros Hd.
  rewrite findById_updateMany by reflexivity.
  destruct parent as [p|].
  - rewrite !findById_update by reflexivity.
    destruct (String.eqb_spec id p) as [P|P]; [subst p|];
      (destruct (String.eqb_spec id target) as [T|T]; [subst target|]);
      rewrite ?Hd; cbn [option_map];
      eexists; (split; [reflexivity|]);
      destruct d as [i c a pj [q|] [l r rc] m act cr up];
      unfold is_reply_to, stamp_delete, stamp_replies; cbn;
      try destruct (String.eqb q id); try destruct (String.eqb q target);
      cbn; repeat split; lia.
  - rewrite findById_update by reflexivity.
    destruct (String.eqb_spec id target) as [T|T]; [subst target|];
      rewrite ?Hd; cbn [option_map];
      eexists; (split; [reflexivity|]);
      destruct d as [i c a pj [q|] [l r rc] m act cr up];
      unfold is_reply_to, stamp_delete, stamp_replies; cbn;
      try destruct (String.eqb q id); try destruct (String.eqb q target);
      cbn; repeat split; lia.
Qed.

(** X16: a successful DELETE of a comment takes exactly 1 from the
    stats.replies of its direct parent, when it has one, and leaves the
    stats.replies of every other comment (the deleted comment, its replies,
    the parent's own ancestors) and every stats.likes as they were. *)
Theorem comment_DELETE_decrements_the_parent_only
    session commentId now db st db' :
  comment_DELETE session commentId now db = (Json st tt, db') ->
  exists c,
    findById Comment._id (toObjectId commentId) (comments db) = Some c
    /\ forall id d,
        findById Comment._id id (comments db) = Some d ->
        exists d',
          findById Comment._id id (comments db') = Some d'
          /\ Comment.likes (Comment.stats d') = Comment.likes (Comment.stats d)
          /\ Comment.replies (Comment.stats d')
             = Comment.replies (Comment.stats d)
               + match Comment.parentCommentId c with
                 | Some p => if String.eqb id p then -1 else 0
                 | None => 0
                 end.
Proof.
  intros H. apply comment_DELETE_inv in H.
  destruct H as (email & user & c & _ & _ & _ & Hc & _ & ->).
  exists c. split; [exact Hc|]. intros id d Hd.
  destruct (delete_effect_stats (toObjectId commentId)
              (Comment.parentCommentId c) now _ _ _ Hd)
    as (d' & Hd' & Hl & Hr & _).
  exists d'. cbn [comments with_comments]. tauto.
Qed.

Lemma comment_DELETE_decrements_the_parent_only_witness :
  exists c,
    findById Comment._id (toObjectId Sample.idB) (comments Sample.db) = Some c
    /\ forall id d,
        findById Comment._id id (comments Sample.db) = Some d ->
        exists d',
          findById Comment._id id (comments Sample.after_delete_B) = Some d'
          /\ Comment.likes (Comment.stats d') = Comment.likes (Comment.stats d)
          /\ Comment.replies (Comment.stats d')
             = Comment.replies (Comment.stats d)
               + match Comment.parentCommentId c with
                 | Some p => if String.eqb id p then -1 else 0
                 | None => 0
                 end.
Proof.
  apply (comment_DELETE_decrements_the_parent_only
           Sample.as_alice Sample.idB (Sample.at_time 200) Sample.db 200).
  reflexivity.
Defined.

(** X17: DELETE is a soft delete: it removes no document.  After a
    successful DELETE the comments have the same ids in the same order, and
    the users, the projects, the Likes (those on the deleted comment
    included) and the Follows are untouched. *)
Theorem comment_DELETE_removes_nothing session commentId now db st db' :
  comment_DELETE session commentId now db = (Json st tt, db') ->
  map Comment._id (comments db') = map Comment._id (comments db)
  /\ users db' = users db
  /\ projects db' = projects db
  /\ likes db' = likes db
  /\ follows db' = follows db.
Proof.
  intros H. apply comment_DELETE_inv in H.
  destruct H as (email & user & c & _ & _ & _ & _ & _ & ->).
  cbn [comments users projects likes follows with_comments].
  repeat split.
  rewrite ids_updateMany by reflexivity.
  destruct (Comment.parentCommentId c);
    rewrite ?ids_update by reflexivity; reflexivity.
Qed.

Lemma comment_DELETE_removes_nothing_witness :
  map Comment._id (comments Sample.after_delete_A)
  = map Comment._id (comments Sample.db)
  /\ users Sample.after_delete_A = users Sample.db
  /\ projects Sample.after_delete_A = projects Sample.db
  /\ likes Sample.after_delete_A = likes Sample.db
  /\ follows Sample.after_delete_A = follows Sample.db.
Proof.
  apply (comment_DELETE_removes_nothing
           Sample.as_alice Sample.idA (Sample.at_time 200) Sample.db 200).
  reflexivity.
Defined.

Lemma deleted_comment_is_not_active session commentId now db st db' x :
  distinct_ids (comments db) ->
  comment_DELETE session commentId now db = (Json st tt, db') ->
  In x (comments db') ->
  Comment._id x = toObjectId commentId ->
  Comment.isActive x = false.
Proof.
  intros Hnd H Hin Hx.
  assert (Hnd' : NoDup (map Comment._id (comments db'))).
  { apply comment_DELETE_inv in H as Hinv.
    destruct Hinv as (email & user & c & _ & _ & _ & _ & _ & ->).
    cbn [comments with_comments].
    rewrite ids_updateMany by reflexivity.
    destruct (Comment.parentCommentId c);
      rewrite ?ids_update by reflexivity; exact Hnd. }
  apply comment_DELETE_inv in H.
  destruct H as (email & user & c & _ & _ & _ & Hc & _ & Hdb).
  destruct (delete_effect (toObjectId commentId)
              (Comment.parentCommentId c) now _ _ _ Hc)
    as (d' & Hd' & _ & _ & _ & Hk & _).
  rewrite String.eqb_refl in Hk. cbn [orb] in Hk.
  rewrite Hdb in Hin, Hnd'. cbn [comments with_comments] in Hin, Hnd'.
  rewrite (findById_only Comment._id _ _ d' x Hnd' Hd' Hin Hx). tauto.
Qed.

(** X18: once a comment is deleted, the GET of that comment answers 404 to
    every signed-in user (the ids of the comments being distinct). *)
Theorem deleted_comment_is_not_found
    session commentId now db st db' session' email' :
  distinct_ids (comments db) ->
  comment_DELETE session commentId now db = (Json st tt, db') ->
  session_email session' = Some email' ->
  comment_GET session' commentId db' = (Error 404 "Comment not found", db').
Proof.
  intros Hnd H Hs.
  assert (Hv : isValid commentId = true).
  { apply comment_DELETE_inv in H as Hinv.
    destruct Hinv as (? & ? & ? & _ & Hv & _). exact Hv. }
  unfold comment_GET. unfold_handler. rewrite Hs, Hv. cbn [negb].
  destruct (filter _ (comments db')) as [|x r] eqn:Hf; [reflexivity|].
  exfalso.
  assert (Hx : In x (x :: r)) by now left.
  rewrite <- Hf in Hx. apply filter_In in Hx. destruct Hx as [Hin Hx].
  apply andb_true_iff in Hx. destruct Hx as [Hid Hact].
  apply String.eqb_eq in Hid.
  rewrite (deleted_comment_is_not_active _ _ _ _ _ _ x Hnd H Hin Hid) in Hact.
  discriminate Hact.
Qed.

Lemma deleted_comment_is_not_found_witness :
  comment_GET Sample.as_bob Sample.idA Sample.after_delete_A
  = (Error 404 "Comment not found", Sample.after_delete_A).
Proof.
  apply (deleted_comment_is_not_found
           Sample.as_alice Sample.idA (Sample.at_time 200) Sample.db 200
           Sample.after_delete_A Sample.as_bob "bob@example.com").
  - unfold distinct_ids. cbn.
    repeat constructor; cbn; intuition discriminate.
  - reflexivity.
  - reflexivity.
Defined.

(** X19: once a top-level comment is deleted, no page of the listing of its
    project, or of any project, shows it (the ids of the comments being
    distinct). *)
Theorem deleted_comment_is_not_listed
    session commentId now db st db' session' projectId q st' views total :
  distinct_ids (comments db) ->
  comment_DELETE session commentId now db = (Json st tt, db') ->
  fst (comments_GET session' projectId q db') = Json st' (views, total) ->
  ~ In (toObjectId commentId) (map view_id views).
Proof.
  intros Hnd H Hget Hin.
  apply in_map_iff in Hin. destruct Hin as [v [Hid Hv]].
  unfold comments_GET in Hget. unfold_handler_in Hget.
  repeat step Hget.
  all: cbn [fst] in Hget; injection Hget as _ <- _.
  all: apply In_page, In_sort_by, in_map_iff in Hv.
  all: destruct Hv as [[c u] [<- Hcu]]; cbn in Hid.
  all: unfold with_author in Hcu; apply in_flat_map in Hcu.
  all: destruct Hcu as [x [Hx Hcu]]; apply in_map_iff in Hcu.
  all: destruct Hcu as [u' [Heq _]]; injection Heq as <- _.
  all: apply filter_In in Hx; destruct Hx as [Hx Htop].
  all: unfold is_top_level_of in Htop; apply andb_true_iff in Htop.
  all: destruct Htop as [_ Hact].
  all: rewrite (deleted_comment_is_not_active _ _ _ _ _ _ x Hnd H Hx Hid)
         in Hact.
  all: discriminate Hact.
Qed.

Lemma deleted_comment_is_not_listed_witness :
  ~ In (toObjectId Sample.idA) (map view_id []).
Proof.
  apply (deleted_comment_is_not_listed
           Sample.as_alice Sample.idA (Sample.at_time 200) Sample.db 200
           Sample.after_delete_A Sample.as_bob Sample.p1 Sample.first_page
           200 _ 0).
  - unfold distinct_ids. cbn.
    repeat constructor; cbn; intuition discriminate.
  - reflexivity.
  - reflexivity.
Defined.

(** ** More on POST of a comment *)

Lemma insertOne_inv {D} (idOf : D -> ObjectId) d l l' :
  insertOne idOf (fun _ _ => false) d l = Some l' ->
  l' = l ++ [d] /\ ~ In (idOf d) (map idOf l).
Proof.
  unfold insertOne. destruct (existsb _ l) eqn:E; [discriminate|].
  intros H. injection H as <-. split; [reflexivity|].
  intros Hin. apply in_map_iff in Hin. destruct Hin as [e [He Hin]].
  apply not_true_iff_false in E. apply E. apply existsb_exists.
  exists e. split; [exact Hin|]. rewrite He, String.eqb_refl. reflexivity.
Qed.

Lemma comments_POST_reply_inv
    session projectId body newId now db st r db' p :
  given (body_parentCommentId body) = Some p ->
  comments_POST session projectId body newId now db = (Json st r, db') ->
  exists email user text pc,
    session_email session = Some email
    /\ findUserByEmail email db = Some user
    /\ body_content body = Text text
    /\ findById Comment._id (toObjectId p) (comments db) = Some pc
    /\ Comment.projectId pc = projectId
    /\ Comment.depth (Comment.metadata pc) + 1 <= 5
    /\ ~ In newId (map Comment._id (comments db))
    /\ let c :=
         Comment.mk newId (trim text) (User._id user) (toObjectId projectId)
           (Some (toObjectId p)) (Comment.mkStats 0 0 0)
           (Comment.mkMetadata false false false
              (Comment.depth (Comment.metadata pc) + 1))
           true (now 0%nat) (now 0%nat) in
       st = 201 /\ r = Some c /\ Comment.schema_valid c = true
       /\ db' = with_comments db
                  (findByIdAndUpdate Comment._id (toObjectId p)
                     (stamp_replies 1 (now 1%nat)) (comments db ++ [c])).
Proof.
  intros Hp H. unfold comments_POST, save_comment, validate_content in H.
  unfold_handler_in H. rewrite Hp in H.
  repeat step H.
  match goal with
  | Hi : insertOne _ _ _ _ = Some _ |- _ =>
      apply insertOne_inv in Hi; cbn [Comment._id] in Hi;
      destruct Hi as [-> Hnew]
  end.
  injection H as <- <- <-.
  match goal with
  | Hs : session_email _ = Some ?e, Hu : findUserByEmail _ _ = Some ?u,
    Ht : body_content _ = Text ?t, Hc : findById Comment._id _ _ = Some ?c
    |- _ => exists e, u, t, c
  end.
  match goal with
  | Hq : negb (String.eqb _ _) = false |- _ =>
      apply negb_false_iff, String.eqb_eq in Hq
  end.
  match goal with
  | Hg : (_ >? 5) = false |- _ =>
      apply Z.gtb_ltb in Hg || idtac; rewrite Z.gtb_ltb in Hg;
      apply Z.ltb_ge in Hg
  end.
  repeat (split; [assumption || reflexivity|]).
  cbv zeta. cbn [comments with_comments option_map] in *.
  split; [|split; [assumption | reflexivity]].
  rewrite findById_update by reflexivity.
  match goal with
  | Hc : findById Comment._id (toObjectId p) _ = Some _ |- _ =>
      assert (Hne : newId <> toObjectId p)
        by (intros ->; apply Hnew; apply findById_In in Hc as Hin;
            apply findById_id in Hc; rewrite <- Hc; now apply in_map)
  end.
  destruct (String.eqb_spec newId (toObjectId p)); [congruence|].
  rewrite findById_app. apply findById_None in Hnew. rewrite Hnew.
  cbn. now rewrite String.eqb_refl.
Qed.

Lemma comments_POST_top_inv
    session projectId body newId now db st r db' :
  given (body_parentCommentId body) = None ->
  comments_POST session projectId body newId now db = (Json st r, db') ->
  exists email user text,
    session_email session = Some email
    /\ findUserByEmail email db = Some user
    /\ body_content body = Text text
    /\ ~ In newId (map Comment._id (comments db))
    /\ let c :=
         Comment.mk newId (trim text) (User._id user) (toObjectId projectId)
           None (Comment.mkStats 0 0 0)
           (Comment.mkMetadata false false false 0)
           true (now 0%nat) (now 0%nat) in
       st = 201 /\ r = Some c /\ Comment.schema_valid c = true
       /\ db' = with_comments db (comments db ++ [c]).
Proof.
  intros Hp H. unfold comments_POST, save_comment, validate_content in H.
  unfold_handler_in H. rewrite Hp in H.
  repeat step H.
  match goal with
  | Hi : insertOne _ _ _ _ = Some _ |- _ =>
      apply insertOne_inv in Hi; cbn [Comment._id] in Hi;
      destruct Hi as [-> Hnew]
  end.
  injection H as <- <- <-.
  match goal with
  | Hs : session_email _ = Some ?e, Hu : findUserByEmail _ _ = Some ?u,
    Ht : body_content _ = Text ?t |- _ => exists e, u, t
  end.
  repeat (split; [assumption || reflexivity|]).
  cbv zeta. cbn [comments with_comments option_map] in *.
  split; [|split; [assumption | reflexivity]].
  rewrite findById_app. apply findById_None in Hnew. rewrite Hnew.
  cbn. now rewrite String.eqb_refl.
Qed.

(** X20: a POST without parentCommentId that succeeds answers 201 with the
    comment it stored: depth 0, no parent, active, not edited, all counters 0,
    the trimmed content, the signed-in user as author.  The comment is added
    after the existing ones, which are left as they were. *)
Theorem top_level_comment_is_created_at_depth_0
    session projectId text newId now db st r db' :
  comments_POST session projectId (mkCommentBody (Text text) None)
                newId now db = (Json st r, db') ->
  exists email user,
    session_email session = Some email
    /\ findUserByEmail email db = Some user
    /\ st = 201
    /\ r = Some (Comment.mk newId (trim text) (User._id user)
                   (toObjectId projectId) None (Comment.mkStats 0 0 0)
                   (Comment.mkMetadata false false false 0)
                   true (now 0%nat) (now 0%nat))
    /\ comments db'
       = comments db
         ++ [Comment.mk newId (trim text) (User._id user)
               (toObjectId projectId) None (Comment.mkStats 0 0 0)
               (Comment.mkMetadata false false false 0)
               true (now 0%nat) (now 0%nat)].
Proof.
  intros H. apply comments_POST_top_inv in H; [|reflexivity].
  destruct H as (email & user & text' & Hs & Hu & Ht & _ & H).
  cbv zeta in H. destruct H as (-> & -> & _ & ->).
  cbn in Ht. injection Ht as <-.
  exists email, user. repeat split; assumption.
Qed.

Lemma top_level_comment_is_created_at_depth_0_witness :
  exists email user,
    session_email Sample.as_bob = Some email
    /\ findUserByEmail email Sample.db = Some user
    /\ 201 = 201
    /\ Some (Comment.mk Sample.idE (js "hi") (User._id Sample.bob)
               Sample.p1 None (Comment.mkStats 0 0 0)
               (Comment.mkMetadata false false false 0) true 300 300)
       = Some (Comment.mk Sample.idE (trim (js " hi ")) (User._id user)
                 (toObjectId Sample.p1) None (Comment.mkStats 0 0 0)
                 (Comment.mkMetadata false false false 0)
                 true (Sample.at_time 300 0%nat) (Sample.at_time 300 0%nat))
    /\ comments
         (snd (comments_POST Sample.as_bob Sample.p1
                 (mkCommentBody (Text (js " hi ")) None) Sample.idE
                 (Sample.at_time 300) Sample.db))
       = comments Sample.db
         ++ [Comment.mk Sample.idE (trim (js " hi ")) (User._id user)
               (toObjectId Sample.p1) None (Comment.mkStats 0 0 0)
               (Comment.mkMetadata false false false 0)
               true (Sample.at_time 300 0%nat) (Sample.at_time 300 0%nat)].
Proof.
  apply (top_level_comment_is_created_at_depth_0
           Sample.as_bob Sample.p1 (js " hi ") Sample.idE
           (Sample.at_time 300) Sample.db).
  reflexivity.
Defined.

(** X21: a reply that is created adds exactly 1 to the stats.replies of the
    comment it replies to; every other existing comment keeps its counters,
    and every existing comment, the parent included, keeps its content, its
    isActive and its depth. *)
Theorem reply_increments_the_parent_only
    session projectId body newId now db st r db' p :
  given (body_parentCommentId body) = Some p ->
  comments_POST session projectId body newId now db = (Json st r, db') ->
  forall id d,
    findById Comment._id id (comments db) = Some d ->
    exists d',
      findById Comment._id id (comments db') = Some d'
      /\ Comment.replies (Comment.stats d')
         = Comment.replies (Comment.stats d)
           + (if String.eqb id (toObjectId p) then 1 else 0)
      /\ Comment.likes (Comment.stats d') = Comment.likes (Comment.stats d)
      /\ Comment.content d' = Comment.content d
      /\ Comment.isActive d' = Comment.isActive d
      /\ Comment.metadata d' = Comment.metadata d.
Proof.
  intros Hp H id d Hd. apply (comments_POST_reply_inv _ _ _ _ _ _ _ _ _ p Hp) in H.
  destruct H as (email & user & text & pc & _ & _ & _ & Hpc & _ & _ & _ & H).
  cbv zeta in H. destruct H as (_ & _ & _ & ->).
  cbn [comments with_comments].
  rewrite findById_update by reflexivity.
  destruct (String.eqb_spec id (toObjectId p)) as [->|Hne].
  - rewrite findById_app, Hpc. rewrite Hpc in Hd. injection Hd as <-.
    eexists. split; [reflexivity|]. cbn. repeat split; lia.
  - rewrite findById_app, Hd.
    exists d. repeat split; lia.
Qed.

Lemma reply_increments_the_parent_only_witness :
  exists d',
    findById Comment._id Sample.idB
      (comments
         (snd (comments_POST Sample.as_bob Sample.p1
                 (mkCommentBody (Text (js "ok")) (Some Sample.idB))
                 Sample.idE (Sample.at_time 300) Sample.db)))
    = Some d'
    /\ Comment.replies (Comment.stats d') = 2.
Proof.
  destruct (reply_increments_the_parent_only
              Sample.as_bob Sample.p1
              (mkCommentBody (Text (js "ok")) (Some Sample.idB)) Sample.idE
              (Sample.at_time 300) Sample.db 201
              (Some (Comment.mk Sample.idE (js "ok") (User._id Sample.bob)
                       Sample.p1 (Some Sample.idB) (Comment.mkStats 0 0 0)
                       (Comment.mkMetadata false false false 2) true 300 300))
              _ Sample.idB eq_refl eq_refl Sample.idB
              (Sample.reply_of Sample.idB "Thanks for the feedback"
                 (Some Sample.idA) 1 1)
              eq_refl)
    as (d' & Hf & Hr & _).
  exists d'. split; [exact Hf | exact Hr].
Defined.

(** X22: every reply that POST creates is an active comment of the project
    of its parent, one level below it and at most at MAX_THREAD_DEPTH, with a
    content of 1 to 2000 code units. *)
Theorem created_reply_is_one_below_its_parent
    session projectId body newId now db st r db' p :
  given (body_parentCommentId body) = Some p ->
  comments_POST session projectId body newId now db = (Json st r, db') ->
  exists c pc,
    r = Some c
    /\ findById Comment._id (toObjectId p) (comments db) = Some pc
    /\ Comment.parentCommentId c = Some (toObjectId p)
    /\ Comment.projectId pc = projectId
    /\ Comment.projectId c = toObjectId projectId
    /\ Comment.depth (Comment.metadata c)
       = Comment.depth (Comment.metadata pc) + 1
    /\ Comment.depth (Comment.metadata c) <= Comment.MAX_THREAD_DEPTH
    /\ Comment.isActive c = true
    /\ 1 <= js_length (Comment.content c) <= 2000.
Proof.
  intros Hp H. apply (comments_POST_reply_inv _ _ _ _ _ _ _ _ _ p Hp) in H.
  destruct H as (email & user & text & pc & _ & _ & _ & Hpc & Hpj & Hd & _ & H).
  cbv zeta in H. destruct H as (_ & -> & Hvalid & _).
  eexists. exists pc. split; [reflexivity|].
  unfold Comment.schema_valid, Comment.MIN_COMMENT_LENGTH,
    Comment.MAX_COMMENT_LENGTH, Comment.MAX_THREAD_DEPTH in *.
  cbn in *. rewrite !andb_true_iff, !Z.leb_le in Hvalid.
  repeat split; try assumption; try reflexivity; lia.
Qed.

Lemma created_reply_is_one_below_its_parent_witness :
  exists c pc,
    fst (comments_POST Sample.as_bob Sample.p1
           (mkCommentBody (Text (js "ok")) (Some Sample.idB)) Sample.idE
           (Sample.at_time 300) Sample.db) = Json 201 (Some c)
    /\ findById Comment._id (toObjectId Sample.idB) (comments Sample.db)
       = Some pc
    /\ Comment.depth (Comment.metadata c)
       = Comment.depth (Comment.metadata pc) + 1.
Proof.
  destruct (created_reply_is_one_below_its_parent
              Sample.as_bob Sample.p1
              (mkCommentBody (Text (js "ok")) (Some Sample.idB)) Sample.idE
              (Sample.at_time 300) Sample.db 201 _ _ Sample.idB
              eq_refl eq_refl)
    as (c & pc & Hr & Hpc & _ & _ & _ & Hd & _).
  exists c, pc. injection Hr as <-. repeat split; assumption.
Defined.

(** X23: a POST that answers an error, whichever it is, has stored no
    comment and changed no counter. *)
Theorem comments_POST_error_writes_nothing
    session projectId body newId now db st e db' :
  comments_POST session projectId body newId now db = (Error st e, db') ->
  db' = db.
Proof.
  intros H. unfold comments_POST, save_comment, validate_content in H.
  unfold_handler_in H.
  repeat step H. all: now injection H as _ _ <-.
Qed.

Lemma comments_POST_error_writes_nothing_witness : Sample.db = Sample.db.
Proof.
  symmetry.
  apply (comments_POST_error_writes_nothing
           Sample.as_bob Sample.p1 (mkCommentBody (Text (js "  ")) None)
           Sample.idE (Sample.at_time 300) Sample.db
           400 "Comment content is required" Sample.db).
  reflexivity.
Defined.

(** ** More on PUT of a comment *)

(** X24: PUT is for the author alone: whatever the role of the signed-in
    user and whatever the new content, a user who is not the author of the
    comment is answered 403 and nothing is written. *)
Theorem comment_PUT_is_for_the_author_alone
    session commentId content now db email user c :
  session_email session = Some email ->
  isValid commentId = true ->
  findUserByEmail email db = Some user ->
  findById Comment._id (toObjectId commentId) (comments db) = Some c ->
  Comment.authorId c <> User._id user ->
  comment_PUT session commentId content now db
  = (Error 403 "You can only edit your own comments", db).
Proof.
  intros H1 H2 H3 H4 H5. unfold comment_PUT. unfold_handler.
  rewrite H1, H2. cbn [negb]. rewrite H3, H4.
  apply String.eqb_neq in H5. now rewrite H5.
Qed.

Lemma comment_PUT_is_for_the_author_alone_witness :
  comment_PUT Sample.as_bob Sample.idA (Text (js "mine now"))
              (Sample.at_time 300) Sample.db
  = (Error 403 "You can only edit your own comments", Sample.db).
Proof.
  apply (comment_PUT_is_for_the_author_alone
           Sample.as_bob Sample.idA (Text (js "mine now"))
           (Sample.at_time 300) Sample.db "bob@example.com" Sample.bob
           (Sample.reply_of Sample.idA "Nice work" None 1 0));
    try reflexivity.
  vm_compute. discriminate.
Defined.

(** X25: an edit changes the content, isEdited and updatedAt of the edited
    comment and nothing else: every comment keeps its counters, isActive,
    depth, pin and hide flags, parent, author, project and creation time,
    every other comment is left as it is, and no other collection is
    written. *)
Theorem comment_PUT_changes_the_content_only
    session commentId content now db st r db' :
  comment_PUT session commentId content now db = (Json st r, db') ->
  (forall id d,
     findById Comment._id id (comments db) = Some d ->
     exists d',
       findById Comment._id id (comments db') = Some d'
       /\ Comment.stats d' = Comment.stats d
       /\ Comment.isActive d' = Comment.isActive d
       /\ Comment.depth (Comment.metadata d')
          = Comment.depth (Comment.metadata d)
       /\ Comment.isPinned (Comment.metadata d')
          = Comment.isPinned (Comment.metadata d)
       /\ Comment.isHidden (Comment.metadata d')
          = Comment.isHidden (Comment.metadata d)
       /\ Comment.parentCommentId d' = Comment.parentCommentId d
       /\ Comment.authorId d' = Comment.authorId d
       /\ Comment.projectId d' = Comment.projectId d
       /\ Comment.createdAt d' = Comment.createdAt d
       /\ (id <> toObjectId commentId -> d' = d))
  /\ users db' = users db
  /\ projects db' = projects db
  /\ likes db' = likes db
  /\ follows db' = follows db.
Proof.
  intros H. unfold comment_PUT, validate_content in H. unfold_handler_in H.
  repeat step H. injection H as _ _ <-.
  cbn [comments users projects likes follows with_comments].
  split; [|repeat split].
  intros id d Hd. rewrite findById_update by reflexivity.
  destruct (String.eqb_spec id (toObjectId commentId)) as [->|Hne].
  - rewrite Hd. cbn. eexists. split; [reflexivity|].
    repeat split; try reflexivity. congruence.
  - exists d. repeat split; assumption.
Qed.

Lemma comment_PUT_changes_the_content_only_witness :
  let db' :=
    snd (comment_PUT Sample.as_alice Sample.idB (Text (js "edited"))
                     (Sample.at_time 300) Sample.db) in
  users db' = users Sample.db /\ likes db' = likes Sample.db.
Proof.
  destruct (comment_PUT_changes_the_content_only
              Sample.as_alice Sample.idB (Text (js "edited"))
              (Sample.at_time 300) Sample.db 200 _ _ eq_refl)
    as (_ & Hu & _ & Hl & _).
  split; assumption.
Defined.

(** ** More on the listing of a project's comments *)

Lemma In_with_author us cs c u :
  In (c, u) (with_author us cs) ->
  In c cs /\ In u us /\ User._id u = Comment.authorId c.
Proof.
  unfold with_author. intros H. apply in_flat_map in H.
  destruct H as [x [Hx H]]. apply in_map_iff in H.
  destruct H as [u' [Heq Hu]]. injection Heq as -> ->.
  apply filter_In in Hu. destruct Hu as [Hu He].
  apply String.eqb_eq in He. auto.
Qed.

(** X26: a page of the listing holds at most [limit] entries, and each entry
    shows a stored comment that is active, top-level and of the requested
    project, with that comment's content and stored like counter, and as
    author a stored user whose id is the comment's authorId. *)
Theorem listing_shows_active_top_level_comments
    session projectId q db st views total :
  fst (comments_GET session projectId q db) = Json st (views, total) ->
  (exists n, limit q = Some n /\ Z.of_nat (List.length views) <= n)
  /\ forall v, In v views ->
       exists c u,
         In c (comments db) /\ In u (users db)
         /\ view_id v = Comment._id c
         /\ view_content v = Comment.content c
         /\ view_likes v = Comment.likes (Comment.stats c)
         /\ view_author v = User._id u
         /\ Comment.authorId c = User._id u
         /\ Comment.projectId c = toObjectId projectId
         /\ Comment.parentCommentId c = None
         /\ Comment.isActive c = true.
Proof.
  intros H. unfold comments_GET in H. unfold_handler_in H.
  repeat step H.
  all: cbn [fst] in H; injection H as _ <- _.
  all: match goal with
       | E : (_ || (?n <=? 0)) = false |- _ =>
           apply orb_false_iff in E; destruct E as [_ E];
           apply Z.leb_gt in E
       end.
  all: split;
    [eexists; split; [reflexivity|];
     match goal with
     | |- Z.of_nat (List.length (firstn ?k ?l)) <= _ =>
         pose proof (firstn_le_length k l)
     end; lia
    |].
  all: intros v Hv; apply In_page, In_sort_by, in_map_iff in Hv.
  all: destruct Hv as [[c u] [<- Hcu]]; apply In_with_author in Hcu.
  all: destruct Hcu as (Hc & Hu & Hid); apply filter_In in Hc.
  all: destruct Hc as [Hc Htop]; unfold is_top_level_of in Htop.
  all: rewrite !andb_true_iff in Htop; destruct Htop as [[Hp Hpar] Hact].
  all: apply String.eqb_eq in Hp.
  all: exists c, u; cbn [view_of view_id view_content view_likes view_author].
  all: destruct (Comment.parentCommentId c); [discriminate Hpar|].
  all: repeat split; auto.
Qed.

Lemma listing_shows_active_top_level_comments_witness :
  exists c,
    In c (comments Sample.db)
    /\ Comment._id c = Sample.idA
    /\ Comment.parentCommentId c = None
    /\ Comment.isActive c = true.
Proof.
  destruct (listing_shows_active_top_level_comments
              Sample.as_bob Sample.p1 Sample.first_page Sample.db 200 _ _
              eq_refl)
    as [_ H].
  destruct (H _ (or_introl eq_refl))
    as (c & u & Hc & _ & Hid & _ & _ & _ & _ & _ & Hpar & Hact).
  exists c. repeat split; try assumption. symmetry. exact Hid.
Defined.

Lemma ordered_by_insert_by {A} (key : A -> Z) ascending x l :
  ordered_by key ascending l ->
  ordered_by key ascending (insert_by key ascending x l).
Proof.
  induction l as [|y r IH]; cbn.
  - intros _. split; [intros ? []|exact I].
  - intros [Hy Hr].
    destruct (if ascending then key x <=? key y else key y <=? key x) eqn:E.
    + cbn. split; [|split; assumption].
      intros z [<-|Hz].
      * destruct ascending; apply Z.leb_le in E; exact E.
      * specialize (Hy z Hz).
        destruct ascending; apply Z.leb_le in E; lia.
    + cbn. split; [|auto].
      intros z Hz. apply In_insert_by in Hz.
      destruct Hz as [->|Hz]; [|exact (Hy z Hz)].
      destruct ascending; apply Z.leb_gt in E; lia.
Qed.

Lemma ordered_by_sort_by {A} (key : A -> Z) ascending l :
  ordered_by key ascending (sort_by key ascending l).
Proof.
  unfold sort_by. induction l as [|x r IH]; cbn; [exact I|].
  now apply ordered_by_insert_by.
Qed.

Lemma ordered_by_skipn {A} (key : A -> Z) ascending n l :
  ordered_by key ascending l -> ordered_by key ascending (skipn n l).
Proof.
  revert l. induction n as [|n IH]; intros [|x r]; cbn; auto.
  intros [_ H]. auto.
Qed.

Lemma ordered_by_firstn {A} (key : A -> Z) ascending n l :
  ordered_by key ascending l -> ordered_by key ascending (firstn n l).
Proof.
  revert l. induction n as [|n IH]; intros [|x r]; cbn; auto.
  intros [Hx H]. split; [|auto].
  intros y Hy. apply Hx. rewrite <- (firstn_skipn n r).
  apply in_or_app. now left.
Qed.

(** X27: every page of the listing is in the requested order: its entries
    are ascending in the sort key (createdAt or stats.likes) when sortOrder
    is asc, and descending otherwise. *)
Theorem listing_page_is_sorted
    session projectId q db st views total :
  fst (comments_GET session projectId q db) = Json st (views, total) ->
  ordered_by (sort_key (sortBy q))
             match sortOrder q with asc => true | desc => false end
             views.
Proof.
  intros H. unfold comments_GET in H. unfold_handler_in H.
  repeat step H.
  all: cbn [fst] in H; injection H as _ <- _.
  all: apply ordered_by_firstn, ordered_by_skipn, ordered_by_sort_by.
Qed.

Lemma listing_page_is_sorted_witness :
  let db :=
    snd (comments_POST Sample.as_bob Sample.p1
           (mkCommentBody (Text (js "ok")) None) Sample.idE
           (Sample.at_time 300) Sample.db) in
  exists views total,
    fst (comments_GET Sample.as_bob Sample.p1 Sample.first_page db)
    = Json 200 (views, total)
    /\ map view_id views = [Sample.idE; Sample.idA]
    /\ map (sort_key (sortBy Sample.first_page)) views = [300; 100]
    /\ ordered_by (sort_key (sortBy Sample.first_page))
                  match sortOrder Sample.first_page with
                  | asc => true | desc => false
                  end
                  views.
Proof.
  intros db. eexists. eexists.
  split; [reflexivity|]. split; [reflexivity|]. split; [reflexivity|].
  apply (listing_page_is_sorted
           Sample.as_bob Sample.p1 Sample.first_page db 200 _ 2).
  reflexivity.
Defined.

(** ** Round trips of the toggles *)

Lemma insertOne_some {D} (idOf : D -> ObjectId) uniq (d : D) l l' :
  insertOne idOf uniq d l = Some l' ->
  l' = l ++ [d]
  /\ forall e, In e l -> String.eqb (idOf e) (idOf d) = false.
Proof.
  unfold insertOne. destruct (existsb _ l) eqn:E; [discriminate|].
  intros H. injection H as <-. split; [reflexivity|].
  intros e He.
  destruct (String.eqb (idOf e) (idOf d)) eqn:Hid; [|reflexivity].
  rewrite <- E. symmetry. apply existsb_exists. exists e.
  now rewrite Hid.
Qed.

Lemma with_likes_back db ls :
  with_likes (with_likes db ls) (likes db) = db.
Proof. now destruct db. Qed.

(** X28: liking a project and then toggling again undoes the like: the
    second call answers liked = false and the database is exactly what it
    was before the first call. *)
Theorem project_like_then_unlike_restores_the_database
    session projectId newId newId' db st db1 :
  project_like_POST session projectId newId db = (Json st true, db1) ->
  project_like_POST session projectId newId' db1 = (Json 200 false, db).
Proof.
  intros H. unfold project_like_POST, save_like in H. unfold_handler_in H.
  repeat step H. injection H as _ <-.
  match goal with
  | E : insertOne _ _ _ _ = Some _ |- _ =>
      apply insertOne_some in E; destruct E as [-> Hfresh]
  end.
  unfold project_like_POST. unfold_handler.
  rewrite E, E0.
  change (findUserByEmail s (with_likes db ?l)) with (findUserByEmail s db).
  rewrite E1. cbn [projects with_likes likes]. rewrite E2.
  unfold findOne in *.
  rewrite (find_last _ _ _ E3)
    by (unfold is_like_of; cbn; now rewrite !String.eqb_refl).
  cbn [Like._id likes with_likes] in *.
  rewrite deleteOne_last; [apply f_equal, with_likes_back | exact Hfresh |].
  unfold has_id. apply String.eqb_refl.
Qed.

Lemma project_like_then_unlike_restores_the_database_witness :
  project_like_POST Sample.as_bob Sample.p1 Sample.idE
    (snd (project_like_POST Sample.as_bob Sample.p1 Sample.idL Sample.db))
  = (Json 200 false, Sample.db).
Proof.
  apply (project_like_then_unlike_restores_the_database
           Sample.as_bob Sample.p1 Sample.idL Sample.idE Sample.db 200).
  reflexivity.
Defined.

Lemma find_update_id {D} (idOf : D -> ObjectId) (p : D -> bool) k f l d :
  (forall x, p (f x) = p x) ->
  (forall x, idOf (f x) = idOf x) ->
  find p l = Some d ->
  exists d',
    find p (findByIdAndUpdate idOf k f l) = Some d' /\ idOf d' = idOf d.
Proof.
  intros Hp Hid. induction l as [|e r IH]; [discriminate|]. cbn.
  destruct (String.eqb (idOf e) k); cbn; rewrite ?Hp.
  - destruct (p e).
    + intros H. injection H as <-. eauto.
    + intros H. eauto.
  - destruct (p e).
    + intros H. injection H as <-. eauto.
    + exact IH.
Qed.

Lemma inc_following_back u :
  User.inc_following (-1) (User.inc_following 1 u) = u.
Proof.
  destruct u as [i e r [fs fg]]. unfold User.inc_following. cbn.
  do 2 f_equal. lia.
Qed.

Lemma inc_followers_back u :
  User.inc_followers (-1) (User.inc_followers 1 u) = u.
Proof.
  destruct u as [i e r [fs fg]]. unfold User.inc_followers. cbn.
  f_equal. f_equal. lia.
Qed.

Lemma update_back a f g l :
  (forall u, User._id (f u) = User._id u) ->
  (forall u, g (f u) = u) ->
  findByIdAndUpdate User._id a g (findByIdAndUpdate User._id a f l) = l.
Proof.
  intros Hid Hback. rewrite (update_twice User._id) by exact Hid.
  now apply update_same.
Qed.

(** Undoing the two counter updates of a follow gives the users back. *)
Lemma follow_counts_round_trip a t us :
  findByIdAndUpdate User._id t (User.inc_followers (-1))
    (findByIdAndUpdate User._id a (User.inc_following (-1))
       (findByIdAndUpdate User._id t (User.inc_followers 1)
          (findByIdAndUpdate User._id a (User.inc_following 1) us)))
  = us.
Proof.
  induction us as [|e r IH]; [reflexivity|].
  cbn [findByIdAndUpdate].
  destruct (String.eqb (User._id e) a) eqn:Ea;
    cbn [findByIdAndUpdate User.inc_following User._id];
    destruct (String.eqb (User._id e) t) eqn:Et;
    cbn [findByIdAndUpdate User.inc_following User.inc_followers User._id];
    rewrite ?Ea, ?Et;
    cbn [findByIdAndUpdate User.inc_following User.inc_followers User._id];
    rewrite ?Ea, ?Et.
  - f_equal. destruct e as [i em ro [fs fg]].
    unfold User.inc_followers, User.inc_following. cbn.
    do 2 f_equal; lia.
  - f_equal.
    + apply inc_following_back.
    + now apply update_back; [|apply inc_followers_back].
  - f_equal.
    + apply inc_followers_back.
    + now apply update_back; [|apply inc_following_back].
  - f_equal. exact IH.
Qed.

Lemma current_user_after_counts s a t k us u :
  find (fun u => String.eqb (User.email u) s) us = Some u ->
  exists u1,
    find (fun u => String.eqb (User.email u) s)
      (findByIdAndUpdate User._id t (User.inc_followers k)
         (findByIdAndUpdate User._id a (User.inc_following k) us))
    = Some u1
    /\ User._id u1 = User._id u.
Proof.
  intros H.
  destruct (find_update_id User._id
              (fun u => String.eqb (User.email u) s)
              a (User.inc_following k)
              _ _ (fun _ => eq_refl) (fun _ => eq_refl) H)
    as (u0 & Hu0 & Hid0).
  destruct (find_update_id User._id
              (fun u => String.eqb (User.email u) s)
              t (User.inc_followers k)
              _ _ (fun _ => eq_refl) (fun _ => eq_refl) Hu0)
    as (u1 & Hu1 & Hid1).
  exists u1. split; [exact Hu1 | congruence].
Qed.

Lemma db_back db fs us :
  users db = us -> follows db = fs ->
  mkDB us (projects db) (comments db) (likes db) fs = db.
Proof. intros <- <-. now destruct db. Qed.

(** X29: following a user and then toggling again undoes the follow: the
    second call answers isFollowing = false with the followers count one
    below that of the first answer, and the database (the Follow rows and
    the counters of both users) is exactly what it was before the first
    call. *)
Theorem follow_then_unfollow_restores_the_database
    session userId newId newId' db st r db1 :
  follow_POST session userId newId db = (Json st r, db1) ->
  isFollowing r = true ->
  follow_POST session userId newId' db1
  = (Json 200 (mkFollowResult false (followersCount r - 1)), db).
Proof.
  intros H Hr.
  unfold follow_POST, update_follow_counts, save_follow in H.
  unfold_handler_in H.
  repeat step H.
  all: injection H as _ <- <-; cbn [isFollowing] in Hr; try discriminate Hr.
  clear Hr.
  match goal with
  | E : insertOne _ _ _ _ = Some _ |- _ =>
      apply insertOne_some in E; destruct E as [-> Hfresh]
  end.
  cbn [users with_users with_follows followersCount Follow._id] in *.
  pose proof (proj2 (follow_counts_effect (User._id t) (toObjectId userId) 1
                       (users db) (toObjectId userId))) as Hcount.
  cbv zeta in Hcount. rewrite E6, E2, String.eqb_refl in Hcount.
  cbn in Hcount. injection Hcount as Hcount.
  unfold findUserByEmail, findOne in E1.
  destruct (current_user_after_counts s (User._id t) (toObjectId userId) 1
              (users db) t E1) as (u1 & Hu1 & Hid1).
  unfold follow_POST, update_follow_counts. unfold_handler.
  rewrite E, E0. unfold findUserByEmail, findOne in *.
  cbn [users with_users with_follows follows].
  rewrite Hu1. cbn [users with_users with_follows follows].
  rewrite E6, Hid1, E3. cbn [users with_users with_follows follows].
  rewrite (find_last _ _ _ E4)
    by (unfold is_follow_of; cbn; now rewrite !String.eqb_refl).
  cbn [users with_users with_follows follows Follow._id].
  rewrite deleteOne_last; [| exact Hfresh | apply String.eqb_refl].
  unfold with_users, with_follows.
  cbn [users projects comments likes follows].
  rewrite follow_counts_round_trip, E2.
  f_equal; [f_equal; f_equal; lia|].
  now apply db_back.
Qed.

Lemma follow_then_unfollow_restores_the_database_witness :
  follow_POST Sample.as_bob (User._id Sample.alice) Sample.idE
    (snd (follow_POST Sample.as_bob (User._id Sample.alice) Sample.idL
            Sample.db))
  = (Json 200 (mkFollowResult false 0), Sample.db).
Proof.
  apply (follow_then_unfollow_restores_the_database
           Sample.as_bob (User._id Sample.alice) Sample.idL Sample.idE
           Sample.db 200 (mkFollowResult true 1)).
  - reflexivity.
  - reflexivity.
Defined.

(** ** The follow status after a toggle *)

Lemma unfollow_leaves_no_row a t fs e :
  unique_follows fs ->
  find (is_follow_of a t) fs = Some e ->
  find (is_follow_of a t)
       (deleteOne (fun f => String.eqb (Follow._id f) (Follow._id e)) fs)
  = None.
Proof.
  unfold unique_follows. induction fs as [|d r IH]; [discriminate|].
  cbn [map find deleteOne]. intros [Hid Hkey] Hf.
  apply NoDup_cons_iff in Hid as [Hd Hr].
  apply NoDup_cons_iff in Hkey as [Hkd Hkr].
  destruct (is_follow_of a t d) eqn:Hp.
  - injection Hf as <-. rewrite String.eqb_refl.
    destruct (find (is_follow_of a t) r) as [x|] eqn:Hx; [|reflexivity].
    exfalso. apply find_some in Hx as [Hin Hq]. apply Hkd.
    unfold is_follow_of in Hp, Hq.
    rewrite andb_true_iff, !String.eqb_eq in Hp, Hq.
    destruct Hp as [-> ->]. destruct Hq as [<- <-].
    apply (in_map (fun f => (Follow.followerId f, Follow.followingId f))).
    exact Hin.
  - pose proof (find_some _ _ Hf) as [Hin _].
    destruct (String.eqb_spec (Follow._id d) (Follow._id e)) as [E|E].
    + exfalso. apply Hd. rewrite E. now apply in_map.
    + cbn [find]. rewrite Hp. now apply IH.
Qed.

Lemma valid_id_is_given userId :
  isValid userId = true -> given (Some userId) = Some userId.
Proof.
  intros H. unfold given.
  destruct (String.eqb_spec userId ""); [subst; discriminate H | reflexivity].
Qed.

(** X30: the follow status agrees with the toggle that precedes it: after a
    successful POST of a follow toggle, the Follow collection keeping its
    unique indexes, GET of the follow status by the same user for the same
    target answers the isFollowing and the followersCount that the toggle
    answered, and writes nothing. *)
Theorem follow_status_agrees_with_the_toggle
    session userId newId db st r db' :
  unique_follows (follows db) ->
  follow_POST session userId newId db = (Json st r, db') ->
  exists s,
    follow_status_GET session (Some userId) db' = (Json 200 s, db')
    /\ status_isFollowing s = isFollowing r
    /\ status_followersCount s = followersCount r.
Proof.
  intros Huniq H.
  unfold follow_POST, update_follow_counts, save_follow in H.
  unfold_handler_in H.
  repeat step H.
  all: injection H as _ <- <-.
  all: unfold follow_status_GET; unfold_handler.
  all: match goal with
       | E : negb (isValid _) = false |- _ =>
           pose proof E as Hvalid; apply negb_false_iff in Hvalid;
           rewrite (valid_id_is_given _ Hvalid)
       end.
  all: cbn [users with_users with_follows follows] in *.
  all: match goal with
       | Hu : findUserByEmail ?s _ = Some ?u
         |- context [findByIdAndUpdate User._id ?t (User.inc_followers ?k)
                       (findByIdAndUpdate User._id ?a _ ?us)] =>
           unfold findUserByEmail, findOne in Hu;
           destruct (current_user_after_counts s a t k us u Hu)
             as (u1 & Hu1 & Hid1)
       end.
  all: unfold findUserByEmail, findOne in *.
  all: cbn [users with_users with_follows follows].
  all: match goal with
       | E : session_email _ = Some _ |- _ => rewrite E
       end.
  all: rewrite Hvalid; cbn [negb]; cbv beta iota.
  all: cbn [users with_users with_follows follows].
  all: rewrite Hu1; cbv beta iota.
  all: cbn [users with_users with_follows follows].
  all: match goal with
       | E : findById User._id _ (findByIdAndUpdate _ _ _ _) = Some _ |- _ =>
           rewrite E
       end.
  all: cbv beta iota; cbn [users with_users with_follows follows].
  all: rewrite Hid1.
  all: eexists; split; [reflexivity|].
  all: cbn [status_isFollowing status_followersCount isFollowing
              followersCount].
  all: split; [|reflexivity].
  - match goal with
    | E : find _ (follows db) = Some _ |- _ =>
        now rewrite (unfollow_leaves_no_row _ _ _ _ Huniq E)
    end.
  - match goal with
    | E : insertOne _ _ _ _ = Some _ |- _ =>
        apply insertOne_some in E; destruct E as [-> _]
    end.
    match goal with
    | E : find _ (follows db) = None |- _ =>
        rewrite (find_last _ _ _ E); [reflexivity|]
    end.
    unfold is_follow_of. cbn. now rewrite !String.eqb_refl.
Qed.

Lemma follow_status_agrees_with_the_toggle_witness :
  exists s,
    follow_status_GET Sample.as_bob (Some (User._id Sample.alice))
      (snd (follow_POST Sample.as_bob (User._id Sample.alice) Sample.idL
              Sample.db))
    = (Json 200 s,
       snd (follow_POST Sample.as_bob (User._id Sample.alice) Sample.idL
              Sample.db))
    /\ status_isFollowing s = true
    /\ status_followersCount s = 1.
Proof.
  apply (follow_status_agrees_with_the_toggle
           Sample.as_bob (User._id Sample.alice) Sample.idL Sample.db
           200 (mkFollowResult true 1)).
  - split; constructor.
  - reflexivity.
Defined.
